(** * backend-in-a-box: schema compiler and lifecycle-hook registry

    A shallow embedding of the Python sources
      - [generator/parser.py]     (typed schema records),
      - [generator/validator.py]  (SchemaValidator),
      - [generator/model_gen.py]  (ModelGenerator),
      - [generator/api_gen.py]    (APIGenerator and the handlers it emits),
      - [app/core/hooks.py]       (HookRegistry),
    followed by the properties established about them.

    Python dictionaries are stdpp [gmap]s, Python strings are [string]s,
    exceptions are an explicit outcome, and code that mutates [self] or
    the outside world threads an explicit state. *)

From Stdlib Require Import ZArith String Ascii List Bool Lia.
From stdpp Require Import base option list gmap strings pretty.

Set Warnings "-register-all".
Set Default Proof Using "Type".
Open Scope string_scope.
Open Scope list_scope.

(** ** Python values, strings and exceptions *)

Module Py.

(** The two characters that cannot be typed inside a string literal. *)
Definition dq : string := String "034"%char EmptyString.
Definition nl : string := String "010"%char EmptyString.

(** [sep.join(parts)] *)
Fixpoint join (sep : string) (parts : list string) : string :=
  match parts with
  | [] => ""
  | [p] => p
  | p :: rest => p +:+ sep +:+ join sep rest
  end.

(** [c.lower()] on one character; only ASCII letters have a lower case
    here, every other byte is kept (Python's [str.lower] also maps
    non-ASCII code points, which the byte strings of this model do not
    represent). *)
Definition lower_ascii (c : ascii) : ascii :=
  let n := nat_of_ascii c in
  if (65 <=? n)%nat && (n <=? 90)%nat then ascii_of_nat (n + 32) else c.

(** [s.lower()] *)
Fixpoint lower (s : string) : string :=
  match s with
  | EmptyString => EmptyString
  | String c rest => String (lower_ascii c) (lower rest)
  end.


(** [s.startswith(p)] *)
Fixpoint startswith (p s : string) : bool :=
  match p, s with
  | EmptyString, _ => true
  | String a p', String b s' => Ascii.eqb a b && startswith p' s'
  | String _ _, EmptyString => false
  end.


(** The values that cross the interfaces modelled here.  Objects that
    hooks may mutate in place (a loaded entity, a payload dictionary owned
    by a handler) are passed as [PyRef] handles into the world state, so
    that sharing is by reference as in Python. *)
Inductive PyVal : Type :=
  | PyNone
  | PyBool (b : bool)
  | PyInt (z : Z)
  | PyStr (s : string)
  | PyList (items : list PyVal)
  | PyDict (d : gmap string PyVal)
  | PyRef (handle : Z).

(** [isinstance(v, dict)] *)
Definition is_dict (v : PyVal) : bool :=
  match v with PyDict _ => true | _ => false end.

(** [v is False]: identity with the singleton [False], which only the
    boolean [False] itself satisfies ([0], [""], [[]] and [None] do not). *)
Definition is_False (v : PyVal) : bool :=
  match v with PyBool false => true | _ => false end.

(** [v is None] *)
Definition is_None (v : PyVal) : bool :=
  match v with PyNone => true | _ => false end.

(** Python truthiness, [bool(v)]. *)
Definition truthy (v : PyVal) : bool :=
  match v with
  | PyNone => false
  | PyBool b => b
  | PyInt z => negb (z =? 0)%Z
  | PyStr s => negb (String.eqb s "")
  | PyList l => match l with [] => false | _ => true end
  | PyDict d => negb (bool_decide (d = ∅))
  | PyRef _ => true
  end.

(** A raised exception: its class and its [str()] text. *)
Record PyExn : Type := Exn { exn_class : string; exn_str : string }.

(** The result of evaluating a call: it returns or it raises. *)
Inductive Outcome (A : Type) : Type :=
  | Return (a : A)
  | Raise (e : PyExn).
Arguments Return {A} a.
Arguments Raise {A} e.

(** Computations over a mutable state [S].  A raised exception leaves the
    state as it was when the exception was raised: nothing is rolled
    back. *)
Definition M (S A : Type) : Type := S -> Outcome A * S.

Definition ret {S A} (a : A) : M S A := fun s => (Return a, s).

Definition raise {S A} (e : PyExn) : M S A := fun s => (Raise e, s).

Definition bind {S A B} (c : M S A) (k : A -> M S B) : M S B :=
  fun s =>
    match c s with
    | (Return a, s') => k a s'
    | (Raise e, s') => (Raise e, s')
    end.

(** [try: c  except Exception as e: h e] *)
Definition try_except {S A} (c : M S A) (h : PyExn -> M S A) : M S A :=
  fun s =>
    match c s with
    | (Return a, s') => (Return a, s')
    | (Raise e, s') => h e s'
    end.

Definition get_state {S} : M S S := fun s => (Return s, s).

Definition modify {S} (f : S -> S) : M S unit := fun s => (Return tt, f s).

(** A computation that leaves the state as it found it. *)
Definition readonly {S A} (c : M S A) : Prop := forall s, snd (c s) = s.

(** [if cond: raise e] *)
Definition raise_if {S} (cond : bool) (e : PyExn) : M S unit :=
  if cond then raise e else ret tt.

(** [for x in xs: body x] *)
Fixpoint for_each {S A} (xs : list A) (body : A -> M S unit) : M S unit :=
  match xs with
  | [] => ret tt
  | x :: rest => bind (body x) (fun _ => for_each rest body)
  end.

(** [d[key]] on a plain dictionary keyed by strings; the text of a
    [KeyError] is the [repr] of the key (written here for a key without
    quotes or escapes). *)
Definition getitem {S V} (d : gmap string V) (key : string) : M S V :=
  match d !! key with
  | Some v => ret v
  | None => raise (Exn "KeyError" ("'" +:+ key +:+ "'"))
  end.

(** [v in c] where [c] is a set of strings or a dictionary keyed by
    strings, given by its membership test [has]: the value is hashed
    first, and lists and dictionaries are unhashable; a hashable value
    that is not a string equals no string. *)
Definition py_in {S} (v : PyVal) (has : string -> bool) : M S bool :=
  match v with
  | PyStr s => ret (has s)
  | PyList _ => raise (Exn "TypeError" "unhashable type: 'list'")
  | PyDict _ => raise (Exn "TypeError" "unhashable type: 'dict'")
  | PyNone | PyBool _ | PyInt _ | PyRef _ => ret false
  end.

(** [str(v)] as an f-string formats it.  The code modelled here formats
    strings, numbers, booleans and [None]; containers and handles never
    reach a format field and print as a marker. *)
Definition py_str (v : PyVal) : string :=
  match v with
  | PyNone => "None"
  | PyBool true => "True"
  | PyBool false => "False"
  | PyInt z => pretty z
  | PyStr s => s
  | PyList _ | PyDict _ | PyRef _ => "<object>"
  end.

(** [sorted(xs)] on strings: insertion into an ascending list. *)
Fixpoint insert_sorted (x : string) (xs : list string) : list string :=
  match xs with
  | [] => [x]
  | y :: rest => if String.leb x y then x :: y :: rest else y :: insert_sorted x rest
  end.

Definition sorted (xs : list string) : list string :=
  foldr insert_sorted [] xs.

End Py.

Import Py.

Notation "'do' x <- c ; k" := (Py.bind c (fun x => k))
  (at level 10, x name, c at level 100, k at level 200,
   format "'[v' 'do'  x  <-  c ; '/' k ']'").
Notation "'run' c ; k" := (Py.bind c (fun _ => k))
  (at level 10, c at level 100, k at level 200,
   format "'[v' 'run'  c ; '/' k ']'").

(** ** app/core/hooks.py *)

Module Hooks.

(** The keyword arguments of a call (Python's double-star context). *)
Abbreviation Kwargs := (gmap string PyVal).

Inductive LogLevel : Type := DEBUG | INFO | ERROR.

Record LogRecord : Type := Log { log_level : LogLevel; log_message : string }.

Definition BEFORE_CREATE : string := "before_create".
Definition AFTER_CREATE : string := "after_create".
Definition BEFORE_UPDATE : string := "before_update".
Definition AFTER_UPDATE : string := "after_update".
Definition BEFORE_DELETE : string := "before_delete".
Definition AFTER_DELETE : string := "after_delete".

Definition VALID_HOOKS : gset string :=
  {[ BEFORE_CREATE; AFTER_CREATE;
     BEFORE_UPDATE; AFTER_UPDATE;
     BEFORE_DELETE; AFTER_DELETE ]}.

(** The text of [{self.VALID_HOOKS}] inside the error message of
    [register].  CPython prints a set of strings in an order that changes
    from one process to the next; the elements are listed here in
    declaration order. *)
Definition VALID_HOOKS_text : string :=
  "{'before_create', 'after_create', 'before_update', 'after_update', "
  +:+ "'before_delete', 'after_delete'}".

Section Registry.

(** Everything outside the registry that a hook can read or change: the
    database session, the objects behind [PyRef] handles, task queues. *)
Context {W : Type}.

(** A registered callable: its [__name__] and the effect of calling it
    with the context as keyword arguments, argument binding included.  Hooks act on the world
    only: registration during execution is outside the registry's contract
    (all registration precedes all execution). *)
Record Hook : Type := MkHook {
  hook_name : string;
  hook_call : Kwargs -> W -> Outcome PyVal * W
}.

(** The state the registry's methods run in: [self._hooks] (model name to
    hook type to list of callables), the world, and the records handed to
    the module's logger.  The lock only serialises concurrent callers and
    has no counterpart in this sequential model. *)
Record State : Type := MkState {
  self_hooks : gmap string (gmap string (list Hook));
  world : W;
  logs : list LogRecord
}.

Definition with_hooks (h : gmap string (gmap string (list Hook))) (st : State) : State :=
  {| self_hooks := h; world := world st; logs := logs st |}.

Definition with_world (w : W) (st : State) : State :=
  {| self_hooks := self_hooks st; world := w; logs := logs st |}.

(** The state once a record has been handed to the logger. *)
Definition logged (lvl : LogLevel) (msg : string) (st : State) : State :=
  {| self_hooks := self_hooks st; world := world st;
     logs := logs st ++ [Log lvl msg] |}.

(** [logger.debug/info/error(msg)] *)
Definition logger (lvl : LogLevel) (msg : string) : M State unit :=
  modify (logged lvl msg).

(** [HookRegistry.__init__] *)
Definition init (w : W) : State :=
  {| self_hooks := ∅; world := w; logs := [] |}.

(** [self._hooks[model_name][hook_type].append(func)] on the
    [defaultdict] of [defaultdict]s of lists: indexing a missing key first
    creates its entry (an empty inner dictionary, an empty list). *)
Definition append_hook (model_name hook_type : string) (func : Hook)
    (hooks : gmap string (gmap string (list Hook)))
    : gmap string (gmap string (list Hook)) :=
  let by_type : gmap string (list Hook) := default ∅ (hooks !! model_name) in
  let funcs := default [] (by_type !! hook_type) in
  <[model_name := <[hook_type := funcs ++ [func]]> by_type]> hooks.

(** [HookRegistry.register] *)
Definition register (hook_type model_name : string) (func : Hook) : M State unit :=
  if bool_decide (hook_type ∉ VALID_HOOKS) then
    raise (Exn "ValueError"
             ("Invalid hook type: " +:+ hook_type +:+ ". Valid types: "
              +:+ VALID_HOOKS_text))
  else
    run modify (fun st => with_hooks (append_hook model_name hook_type func (self_hooks st)) st);
    logger INFO ("Registered " +:+ hook_type +:+ " hook for " +:+ model_name
                 +:+ ": " +:+ hook_name func).

(** [d.get(model_name, {}).get(hook_type, [])]: [dict.get] with a
    default reads the dictionary and never inserts into it. *)
Definition lookup_hooks (d : gmap string (gmap string (list Hook)))
    (hook_type model_name : string) : list Hook :=
  default [] (default ∅ (d !! model_name) !! hook_type).

(** [HookRegistry.get_hooks] *)
Definition get_hooks (hook_type model_name : string) : M State (list Hook) :=
  do st <- get_state;
  ret (lookup_hooks (self_hooks st) hook_type model_name).

(** The call of [hook] with the context as keyword arguments: the hook
    runs on the world component. *)
Definition call (hook : Hook) (context : Kwargs) : M State PyVal :=
  fun st =>
    let (r, w') := hook_call hook context (world st) in
    (r, with_world w' st).

(** The text of the error record of [execute_hooks]. *)
Definition error_message (hook_type model_name : string) (hook : Hook) (e : PyExn)
    : string :=
  "Error in " +:+ hook_type +:+ " hook " +:+ hook_name hook +:+ " for "
  +:+ model_name +:+ ": " +:+ exn_str e.

(** How the [for] loop of [execute_hooks] is left: by running off the end
    of the list with the accumulated context, or by the [return result]
    inside it. *)
Inductive LoopExit : Type :=
  | Fallthrough (context : Kwargs)
  | Returned (result : PyVal).

(** The loop [for hook in hooks: try: ... except Exception as e: ...; raise].
    [context.update(result)] overwrites the keys of [result] and keeps the
    others. *)
Fixpoint hook_loop (hook_type model_name : string) (hooks : list Hook)
    (context : Kwargs) : M State LoopExit :=
  match hooks with
  | [] => ret (Fallthrough context)
  | hook :: rest =>
      do result <-
        try_except (call hook context)
          (fun e =>
             run logger ERROR (error_message hook_type model_name hook e);
             raise e);
      if is_None result then hook_loop hook_type model_name rest context
      else
        match result with
        | PyDict d => hook_loop hook_type model_name rest (d ∪ context)
        | _ => ret (Returned result)
        end
  end.

(** The value of the [return] statement that ends [execute_hooks] after
    the loop: [return context] or the [return result] taken inside it. *)
Definition exit_result (exit : LoopExit) : PyVal :=
  match exit with
  | Fallthrough context => PyDict context
  | Returned result => result
  end.


(** The text of the debug record of [execute_hooks]. *)
Definition executing_message (hook_type model_name : string) (hooks : list Hook)
    : string :=
  "Executing " +:+ pretty (length hooks) +:+ " " +:+ hook_type
  +:+ " hook(s) for " +:+ model_name.

(** [HookRegistry.execute_hooks] *)
Definition execute_hooks (hook_type model_name : string) (context : Kwargs)
    : M State PyVal :=
  do hooks <- get_hooks hook_type model_name;
  match hooks with
  | [] => ret (PyDict context)
  | _ =>
      run logger DEBUG (executing_message hook_type model_name hooks);
      do exit <- hook_loop hook_type model_name hooks context;
      ret (exit_result exit)
  end.

End Registry.

Arguments Hook : clear implicits.
Arguments State : clear implicits.

End Hooks.

(** ** generator/parser.py: the typed schema records *)

(** [field.default] is an arbitrary YAML value.  The generators only ask
    whether it is [None] (here: absent), a [str] or a [bool], and otherwise
    format it with [str()]; a value of any other type is carried as that
    text. *)
Inductive DefaultValue : Type :=
  | DefaultStr (s : string)
  | DefaultBool (b : bool)
  | DefaultOther (text : string).

Module FieldDefinition.
Record t : Type := Make {
  name : string;
  type : string;
  primary : bool;
  unique : bool;
  required : bool;
  default : option DefaultValue;
  nullable : bool;
  max_length : option Z;
  index : bool
}.
End FieldDefinition.

Module RelationDefinition.
Record t : Type := Make {
  type : string;
  target : string;
  back_populates : option string;
  foreign_key : option string
}.
End RelationDefinition.

Module SchemaDefinition.
(** [fields] and [relations] are the raw documents: a mapping from field
    name to its options in document order, and a list of dictionaries. *)
Record t : Type := Make {
  name : string;
  table : string;
  fields : list (string * gmap string PyVal);
  relations : list (gmap string PyVal);
  soft_delete : bool;
  timestamps : bool
}.
End SchemaDefinition.

(** ** generator/validator.py *)

Module Validator.

Definition VALID_TYPES : list string :=
  [ "string"; "integer"; "float"; "boolean"; "datetime"; "date"; "time";
    "uuid"; "text"; "json"; "binary" ].

Definition VALID_RELATION_TYPES : list string :=
  [ "one_to_many"; "many_to_one"; "many_to_many" ].

(** [self.schemas] *)
Abbreviation Self := (gmap string SchemaDefinition.t).

Definition ValidationError (msg : string) : PyExn := Exn "ValidationError" msg.

(** [SchemaValidator.__init__] *)
Definition init : Self := ∅.

(** [SchemaValidator.validate_field_type] *)
Definition validate_field_type (field : FieldDefinition.t) : M Self unit :=
  raise_if (bool_decide (FieldDefinition.type field ∉ VALID_TYPES))
    (ValidationError
       ("Invalid field type '" +:+ FieldDefinition.type field +:+ "' for field '"
        +:+ FieldDefinition.name field +:+ "'. "
        +:+ "Valid types: " +:+ join ", " (sorted VALID_TYPES))).

(** [SchemaValidator.validate_primary_key] *)
Definition validate_primary_key (schema : SchemaDefinition.t)
    (fields : list FieldDefinition.t) : M Self unit :=
  let primary_keys := List.filter FieldDefinition.primary fields in
  run raise_if (length primary_keys =? 0)%nat
        (ValidationError
           ("Schema '" +:+ SchemaDefinition.name schema +:+ "' must have a primary key"));
  raise_if (1 <? length primary_keys)%nat
    (ValidationError
       ("Schema '" +:+ SchemaDefinition.name schema +:+ "' has multiple primary keys: "
        +:+ join ", " (map FieldDefinition.name primary_keys))).

(** [SchemaValidator.validate_required_nullable] *)
Definition validate_required_nullable (field : FieldDefinition.t) : M Self unit :=
  raise_if (FieldDefinition.required field && FieldDefinition.nullable field
            && negb (FieldDefinition.primary field))
    (ValidationError
       ("Field '" +:+ FieldDefinition.name field
        +:+ "' cannot be both required and nullable")).

(** [relation.get(key)]: [None] when the key is missing. *)
Definition relation_get (relation : gmap string PyVal) (key : string) : PyVal :=
  default PyNone (relation !! key).

(** [SchemaValidator.validate_relations] *)
Definition validate_relations (schema : SchemaDefinition.t) : M Self unit :=
  for_each (SchemaDefinition.relations schema) (fun relation =>
    let rel_type := relation_get relation "type" in
    do known <- py_in rel_type (fun s => bool_decide (s ∈ VALID_RELATION_TYPES));
    run raise_if (negb known)
          (ValidationError
             ("Invalid relation type '" +:+ py_str rel_type +:+ "' in schema '"
              +:+ SchemaDefinition.name schema +:+ "'. "
              +:+ "Valid types: " +:+ join ", " (sorted VALID_RELATION_TYPES)));
    let target := relation_get relation "target" in
    raise_if (negb (truthy target))
      (ValidationError
         ("Relation in schema '" +:+ SchemaDefinition.name schema
          +:+ "' missing 'target' field"))).

(** [SchemaValidator.validate_schema] *)
Definition validate_schema (schema : SchemaDefinition.t)
    (fields : list FieldDefinition.t) : M Self unit :=
  run for_each fields (fun field =>
        run validate_field_type field;
        validate_required_nullable field);
  run validate_primary_key schema fields;
  validate_relations schema.

(** The dictionary comprehension [{s.name: s for s in schemas}]: a later
    schema of the same name replaces an earlier one. *)
Definition index_by_name (schemas : list SchemaDefinition.t) : Self :=
  foldl (fun m s => <[SchemaDefinition.name s := s]> m) ∅ schemas.

(** [SchemaValidator.validate_all] *)
Definition validate_all (schemas : list SchemaDefinition.t)
    (field_map : gmap string (list FieldDefinition.t)) : M Self unit :=
  run modify (fun _ => index_by_name schemas);
  run for_each schemas (fun schema =>
        do fields <- getitem field_map (SchemaDefinition.name schema);
        validate_schema schema fields);
  for_each schemas (fun schema =>
    for_each (SchemaDefinition.relations schema) (fun relation =>
      let target := relation_get relation "target" in
      if truthy target then
        do self <- get_state;
        do present <- py_in target (fun s => bool_decide (is_Some (self !! s)));
        raise_if (negb present)
          (ValidationError
             ("Relation target '" +:+ py_str target +:+ "' in schema '"
              +:+ SchemaDefinition.name schema +:+ "' does not exist"))
      else ret tt)).

End Validator.

(** ** generator/model_gen.py *)

Module ModelGenerator.

(** [x or fallback] on an optional string: [None] and the empty string
    are both falsy. *)
Definition or_else (x : option string) (fallback : string) : string :=
  match x with
  | Some s => if String.eqb s "" then fallback else s
  | None => fallback
  end.

Definition TYPE_MAPPING : gmap string string :=
  list_to_map
    [ ("string", "String");
      ("integer", "Integer");
      ("float", "Float");
      ("boolean", "Boolean");
      ("datetime", "DateTime");
      ("date", "Date");
      ("time", "Time");
      ("uuid", "UUID");
      ("text", "Text");
      ("json", "JSON");
      ("binary", "LargeBinary") ].

(** [ModelGenerator._get_sqlalchemy_type]; [field.max_length] is truthy
    when it is an integer other than zero. *)
Definition _get_sqlalchemy_type (field : FieldDefinition.t) : string :=
  let sa_type := default "String" (TYPE_MAPPING !! FieldDefinition.type field) in
  match FieldDefinition.max_length field with
  | Some n =>
      if String.eqb (FieldDefinition.type field) "string" && negb (n =? 0)%Z
      then "String(" +:+ pretty n +:+ ")"
      else sa_type
  | None => sa_type
  end.

(** The [default=...] argument of a column, for a default that is not
    [None]. *)
Definition default_arg (d : DefaultValue) : string :=
  match d with
  | DefaultStr s => "default=" +:+ dq +:+ s +:+ dq
  | DefaultBool b => "default=" +:+ (if b then "True" else "False")
  | DefaultOther text => "default=" +:+ text
  end.

(** [ModelGenerator._generate_field_code] *)
Definition _generate_field_code (field : FieldDefinition.t) : string :=
  let sa_type := _get_sqlalchemy_type field in
  let args :=
    [sa_type]
    ++ (if FieldDefinition.primary field
        then "primary_key=True"
             :: (if String.eqb (FieldDefinition.type field) "uuid"
                 then ["default=uuid.uuid4"] else [])
        else [])
    ++ (if FieldDefinition.unique field then ["unique=True"] else [])
    ++ (if negb (FieldDefinition.nullable field) then ["nullable=False"] else [])
    ++ (if FieldDefinition.index field then ["index=True"] else [])
    ++ (match FieldDefinition.default field with
        | Some d => [default_arg d]
        | None => []
        end) in
  "    " +:+ FieldDefinition.name field +:+ " = Column(" +:+ join ", " args +:+ ")".

(** [ModelGenerator._generate_relation_code] *)
Definition _generate_relation_code (relation : RelationDefinition.t)
    (schema_name : string) : string :=
  let target := RelationDefinition.target relation in
  if String.eqb (RelationDefinition.type relation) "one_to_many" then
    let back_pop := or_else (RelationDefinition.back_populates relation)
                            (lower schema_name +:+ "s") in
    "    " +:+ lower target +:+ "s = relationship(" +:+ dq +:+ target +:+ dq
    +:+ ", back_populates=" +:+ dq +:+ back_pop +:+ dq +:+ ")"
  else if String.eqb (RelationDefinition.type relation) "many_to_one" then
    let back_pop := or_else (RelationDefinition.back_populates relation)
                            (lower target) in
    let fk := or_else (RelationDefinition.foreign_key relation)
                      (lower target +:+ "s.id") in
    "    " +:+ lower target +:+ "_id = Column(UUID, ForeignKey(" +:+ dq +:+ fk
    +:+ dq +:+ "))" +:+ nl
    +:+ "    " +:+ lower target +:+ " = relationship(" +:+ dq +:+ target +:+ dq
    +:+ ", back_populates=" +:+ dq +:+ back_pop +:+ dq +:+ ")"
  else if String.eqb (RelationDefinition.type relation) "many_to_many" then
    let back_pop := or_else (RelationDefinition.back_populates relation)
                            (lower schema_name +:+ "s") in
    "    " +:+ lower target +:+ "s = relationship(" +:+ dq +:+ target +:+ dq
    +:+ ", secondary=" +:+ dq +:+ lower schema_name +:+ "_" +:+ lower target +:+ dq
    +:+ ", back_populates=" +:+ dq +:+ back_pop +:+ dq +:+ ")"
  else "".

Definition imports : list string :=
  [ "from sqlalchemy import Column, String, Integer, Float, Boolean, DateTime, Date, Time, Text, JSON, LargeBinary, ForeignKey, UUID";
    "from sqlalchemy.orm import relationship";
    "from datetime import datetime";
    "from app.core.database import Base";
    "import uuid" ].

(** The list [field_lines] of [generate_model]. *)
Definition field_lines (fields : list FieldDefinition.t) : list string :=
  map _generate_field_code fields.

(** The list [timestamp_fields] of [generate_model]. *)
Definition timestamp_fields (schema : SchemaDefinition.t) : list string :=
  if SchemaDefinition.timestamps schema then
    [ "    created_at = Column(DateTime, default=datetime.utcnow, nullable=False)";
      "    updated_at = Column(DateTime, default=datetime.utcnow, onupdate=datetime.utcnow, nullable=False)" ]
  else [].

(** The list [soft_delete_field] of [generate_model]. *)
Definition soft_delete_field (schema : SchemaDefinition.t) : list string :=
  if SchemaDefinition.soft_delete schema then
    [ "    deleted_at = Column(DateTime, nullable=True)" ]
  else [].

(** The list [relation_lines] of [generate_model]. *)
Definition relation_lines (schema : SchemaDefinition.t)
    (relations : list RelationDefinition.t) : list string :=
  map (fun rel => _generate_relation_code rel (SchemaDefinition.name schema)) relations.

(** The entries joined into [class_body], in the order in which
    [generate_model] concatenates them. *)
Definition class_body_lines (schema : SchemaDefinition.t)
    (fields : list FieldDefinition.t) (relations : list RelationDefinition.t)
    : list string :=
  field_lines fields ++ timestamp_fields schema ++ soft_delete_field schema
  ++ relation_lines schema relations.

(** The lines of the template of [generate_model] above [{class_body}]. *)
Definition header_lines (schema : SchemaDefinition.t) : list string :=
  [ dq +:+ dq +:+ dq +:+ "Auto-generated model for " +:+ SchemaDefinition.name schema
    +:+ "." +:+ dq +:+ dq +:+ dq;
    join nl imports;
    "";
    "";
    "class " +:+ SchemaDefinition.name schema +:+ "(Base):";
    "    " +:+ dq +:+ dq +:+ dq +:+ "SQLAlchemy model for "
    +:+ SchemaDefinition.name schema +:+ "." +:+ dq +:+ dq +:+ dq;
    "    __tablename__ = " +:+ dq +:+ SchemaDefinition.table schema +:+ dq;
    "" ].

(** [ModelGenerator.generate_model].  The generator object [self] holds
    only [output_dir], which the method does not read. *)
Definition generate_model (output_dir : string) (schema : SchemaDefinition.t)
    (fields : list FieldDefinition.t) (relations : list RelationDefinition.t)
    : string :=
  let class_body := join nl (class_body_lines schema fields relations) in
  join nl (header_lines schema ++ [class_body]) +:+ nl.

End ModelGenerator.

(** ** generator/api_gen.py *)

Module APIGenerator.

Definition type_map : gmap string string :=
  list_to_map
    [ ("string", "str");
      ("integer", "int");
      ("float", "float");
      ("boolean", "bool");
      ("datetime", "datetime");
      ("date", "date");
      ("time", "time");
      ("uuid", "UUID");
      ("text", "str");
      ("json", "dict");
      ("binary", "bytes") ].









End APIGenerator.

(** ** The delete handler emitted by [router_code]

    [generate_router] emits the handlers as text; this is the behaviour of
    the emitted [delete_...] function when the framework calls it.  The
    persistence session [db] is an external collaborator, used through
    the four calls the handler makes on it. *)

Module Handlers.

(** The calls the emitted handler makes on the session and on a loaded
    entity.  An entity is known by a handle; each call may raise. *)
Class Session (W : Type) : Type := {
  (** [db.query(Model).filter(Model.pk == pk).first()] *)
  query_first : string -> Z -> W -> Outcome (option Z) * W;
  (** [item.__dict__.items()] *)
  instance_dict : Z -> W -> Outcome (gmap string PyVal) * W;
  (** [db.delete(item)] *)
  db_delete : Z -> W -> Outcome unit * W;
  (** [db.commit()] *)
  db_commit : W -> Outcome unit * W
}.

Section Delete.

Context {W : Type} `{Session W}.

(** A call on the world, made from code that runs next to the registry. *)
Definition on_world {A} (op : W -> Outcome A * W) : M (Hooks.State W) A :=
  fun st =>
    let (r, w') := op (Hooks.world st) in
    (r, Hooks.with_world w' st).

(** [raise HTTPException(status_code=..., detail=...)] *)
Definition HTTPException (status_code : Z) (detail : string) : PyExn :=
  Exn "HTTPException" (pretty status_code +:+ ": " +:+ detail).

(** [{k: v for k, v in item.__dict__.items() if not k.startswith('_')}] *)
Definition public_attributes (d : gmap string PyVal) : gmap string PyVal :=
  filter (fun kv => startswith "_" (fst kv) = false) d.

(** The branch of the emitted handler taken when
    [should_delete is False]: commit what the hooks changed and return. *)
Definition abort_branch : M (Hooks.State W) PyVal :=
  run on_world db_commit;
  ret PyNone.

(** The rest of the emitted handler otherwise: snapshot, delete, commit,
    [after_delete] hooks. *)
Definition removal_branch (model_name : string) (item : Z)
    : M (Hooks.State W) PyVal :=
  do attrs <- on_world (instance_dict item);
  let instance_data := public_attributes attrs in
  run on_world (db_delete item);
  run on_world db_commit;
  run Hooks.execute_hooks "after_delete" model_name
        {[ "instance_data" := PyDict instance_data ]};
  ret PyNone.

(** The emitted function [delete_<table>], called with the primary-key
    value [pk] for the model [model_name]. *)
Definition delete_handler (model_name : string) (pk : Z)
    : M (Hooks.State W) PyVal :=
  do item <- on_world (query_first model_name pk);
  match item with
  | None => raise (HTTPException 404 (model_name +:+ " not found"))
  | Some item =>
      do should_delete <-
        Hooks.execute_hooks "before_delete" model_name {[ "instance" := PyRef item ]};
      if is_False should_delete then abort_branch
      else removal_branch model_name item
  end.

End Delete.

End Handlers.

(** ** A reference session

    A unit-of-work session in the manner of the ORM the handlers are
    generated for: queries load rows into the session, attribute writes
    and deletions stay pending, and [commit] flushes both to the stored
    rows.  It instantiates [Handlers.Session] wherever a concrete run is
    needed. *)

Module UnitOfWork.

Record Db : Type := MkDb {
  (** committed rows, by primary key *)
  stored : gmap Z (gmap string PyVal);
  (** entities loaded in the session, with their current attributes *)
  loaded : gmap Z (gmap string PyVal);
  (** entities marked by [delete] *)
  doomed : gset Z
}.

Definition query_first (model_name : string) (pk : Z) (db : Db)
    : Outcome (option Z) * Db :=
  match loaded db !! pk, stored db !! pk with
  | Some _, _ => (Return (Some pk), db)
  | None, Some row =>
      (Return (Some pk),
       {| stored := stored db; loaded := <[pk := row]> (loaded db); doomed := doomed db |})
  | None, None => (Return None, db)
  end.

Definition instance_dict (item : Z) (db : Db) : Outcome (gmap string PyVal) * Db :=
  (Return (default ∅ (loaded db !! item)), db).

Definition db_delete (item : Z) (db : Db) : Outcome unit * Db :=
  (Return tt,
   {| stored := stored db; loaded := loaded db; doomed := {[ item ]} ∪ doomed db |}).

Definition db_commit (db : Db) : Outcome unit * Db :=
  (Return tt,
   {| stored := filter (fun kv => fst kv ∉ doomed db) (loaded db ∪ stored db);
      loaded := ∅;
      doomed := ∅ |}).

(** [instance.<attr> = v], as a hook does it on the entity it is given. *)
Definition setattr (item : Z) (attr : string) (v : PyVal) (db : Db) : Db :=
  {| stored := stored db;
     loaded := alter (fun row => <[attr := v]> row) item (loaded db);
     doomed := doomed db |}.

#[export] Instance session : Handlers.Session Db := {
  Handlers.query_first := query_first;
  Handlers.instance_dict := instance_dict;
  Handlers.db_delete := db_delete;
  Handlers.db_commit := db_commit
}.

End UnitOfWork.

(** ** app/core/hooks.py: listing and the decorators *)

Module HookTools.

Import Hooks.

Section Tools.

Context {W : Type}.

(** [HookRegistry.list_hooks]: for every model and every hook type stored
    under it, the [__name__] of each registered function, in order. *)
Definition list_hooks : M (State W) (gmap string (gmap string (list string))) :=
  do st <- get_state;
  ret ((fun hooks_by_type : gmap string (list (Hook W)) =>
          (fun funcs : list (Hook W) => map hook_name funcs) <$> hooks_by_type)
       <$> self_hooks st).







(** The states a registry goes through: created empty, then any sequence
    of [register], [get_hooks], [execute_hooks] and [list_hooks] calls,
    with the world changing in between as it pleases. *)
Inductive reachable : State W -> Prop :=
  | reachable_init (w : W) :
      reachable (init w)
  | reachable_register (st : State W) (hook_type model_name : string) (func : Hook W) :
      reachable st -> reachable (snd (register hook_type model_name func st))
  | reachable_get_hooks (st : State W) (hook_type model_name : string) :
      reachable st -> reachable (snd (get_hooks hook_type model_name st))
  | reachable_execute_hooks (st : State W) (hook_type model_name : string)
      (context : Kwargs) :
      reachable st -> reachable (snd (execute_hooks hook_type model_name context st))
  | reachable_list_hooks (st : State W) :
      reachable st -> reachable (snd (list_hooks st))
  | reachable_world (st : State W) (w : W) :
      reachable st -> reachable (with_world w st).

(** Every list stored in [self._hooks] sits under a recognised event name
    and holds at least one callable. *)
Definition well_formed (st : State W) : Prop :=
  forall model_name by_type hook_type funcs,
    self_hooks st !! model_name = Some by_type ->
    by_type !! hook_type = Some funcs ->
    hook_type ∈ VALID_HOOKS /\ funcs <> [].

End Tools.

End HookTools.

(** ** generator/validator.py: the inputs it is written for *)

Module ValidatorInputs.




End ValidatorInputs.

(** ** The generated columns and response lines, by parts *)

Module ColumnSpec.

Import ModelGenerator.

(** The list [args] that [_generate_field_code] builds before joining
    it: the type, then one entry per constraint, in the order of the
    [if] statements. *)
Definition column_args (field : FieldDefinition.t) : list string :=
  [_get_sqlalchemy_type field]
  ++ (if FieldDefinition.primary field
      then "primary_key=True"
           :: (if String.eqb (FieldDefinition.type field) "uuid"
               then ["default=uuid.uuid4"] else [])
      else [])
  ++ (if FieldDefinition.unique field then ["unique=True"] else [])
  ++ (if negb (FieldDefinition.nullable field) then ["nullable=False"] else [])
  ++ (if FieldDefinition.index field then ["index=True"] else [])
  ++ (match FieldDefinition.default field with
      | Some d => [default_arg d]
      | None => []
      end).

(** The entries of [args] that set the column's [default]. *)
Definition default_args (field : FieldDefinition.t) : list string :=
  List.filter (startswith "default=") (column_args field).


End ColumnSpec.

(** ** What the validator accepts *)

Module ValidatorSpec.

(** Exactly one field has [primary=true]. *)
Definition one_primary (fields : list FieldDefinition.t) : Prop :=
  length (List.filter FieldDefinition.primary fields) = 1%nat.

(** The field's type is one of the eleven and the field is not both
    required and nullable, unless it is primary. *)
Definition field_ok (f : FieldDefinition.t) : Prop :=
  FieldDefinition.type f ∈ Validator.VALID_TYPES
  /\ ~ (FieldDefinition.required f = true /\ FieldDefinition.nullable f = true
        /\ FieldDefinition.primary f = false).

(** The relation's target names one of the schemas. *)
Definition target_exists (schemas : list SchemaDefinition.t)
    (relation : gmap string PyVal) : Prop :=
  exists target,
    relation !! "target" = Some (PyStr target)
    /\ target ∈ map SchemaDefinition.name schemas.

(** The acceptance condition in the words of the specification: in every
    schema, exactly one primary field, every field type among the eleven,
    no field both required and nullable unless primary, and every
    relation target among the schemas. *)
Definition spec_accepts (schemas : list SchemaDefinition.t)
    (field_map : gmap string (list FieldDefinition.t)) : Prop :=
  forall schema, schema ∈ schemas ->
    exists fields,
      field_map !! SchemaDefinition.name schema = Some fields
      /\ one_primary fields
      /\ (forall f, f ∈ fields -> field_ok f)
      /\ (forall relation, relation ∈ SchemaDefinition.relations schema ->
            target_exists schemas relation).

(** What the code also asks of a relation: a type among the three
    supported kinds, and a target that is not empty. *)
Definition relation_ok (schemas : list SchemaDefinition.t)
    (relation : gmap string PyVal) : Prop :=
  (exists kind,
      relation !! "type" = Some (PyStr kind)
      /\ kind ∈ Validator.VALID_RELATION_TYPES)
  /\ exists target,
       relation !! "target" = Some (PyStr target)
       /\ target <> ""
       /\ target ∈ map SchemaDefinition.name schemas.

(** The acceptance condition of the code. *)
Definition accepts (schemas : list SchemaDefinition.t)
    (field_map : gmap string (list FieldDefinition.t)) : Prop :=
  forall schema, schema ∈ schemas ->
    exists fields,
      field_map !! SchemaDefinition.name schema = Some fields
      /\ one_primary fields
      /\ (forall f, f ∈ fields -> field_ok f)
      /\ (forall relation, relation ∈ SchemaDefinition.relations schema ->
            relation_ok schemas relation).

End ValidatorSpec.

(** ** Where the cross-cutting columns go *)

Module ModelSpec.

Import ModelGenerator.

(** The cross-cutting columns: the timestamps, then the soft-delete
    marker. *)
Definition cross_cutting (schema : SchemaDefinition.t) : list string :=
  timestamp_fields schema ++ soft_delete_field schema.

(** The order in the words of the specification: the cross-cutting
    columns come after the declared fields and after the relations. *)
Definition spec_order (schema : SchemaDefinition.t) (fields : list FieldDefinition.t)
    (relations : list RelationDefinition.t) : Prop :=
  class_body_lines schema fields relations
  = field_lines fields ++ relation_lines schema relations ++ cross_cutting schema.

End ModelSpec.

(** ** The lines expected in the data-transfer types *)

Module ApiSpec.

Import APIGenerator.




End ApiSpec.

(** ** Concrete runs

    A stored post, a few hooks and the registries built from them by
    [register], for the statements that are checked on a concrete run. *)

Module Examples.

Import UnitOfWork.

Definition post_row : gmap string PyVal :=
  {[ "_sa_instance_state" := PyRef 0;
     "id" := PyInt 7;
     "title" := PyStr "hello" ]}.

Definition db0 : Db :=
  {| stored := {[ 7%Z := post_row ]}; loaded := ∅; doomed := ∅ |}.

(** Entity 7 loaded into the session, as the handler's query leaves it. *)
Definition db1 : Db := snd (query_first "Post" 7 db0).

(** The keyword context of the [before_delete] hooks of entity 7. *)
Definition instance7 : gmap string PyVal := {[ "instance" := PyRef 7 ]}.

(** A hook on [instance] that stamps [deleted_at] and returns [result]. *)
Definition stamping_hook (name : string) (result : PyVal) : Hooks.Hook Db :=
  {| Hooks.hook_name := name;
     Hooks.hook_call := fun context db =>
       match context !! "instance" with
       | Some (PyRef item) =>
           (Return result, setattr item "deleted_at" (PyStr "2024-01-01") db)
       | _ => (Raise (Exn "TypeError" "missing required argument: 'instance'"), db)
       end |}.

(** The soft-delete hook of the documentation: stamp and return [False]. *)
Definition soft_delete : Hooks.Hook Db := stamping_hook "soft_delete" (PyBool false).


(** A hook that returns a mapping to merge into the context. *)
Definition tagging_hook : Hooks.Hook Db :=
  {| Hooks.hook_name := "tagging_hook";
     Hooks.hook_call := fun context db => (Return (PyDict {[ "tag" := PyStr "seen" ]}), db) |}.

(** A hook that records the [tag] it is called with on entity 7. *)
Definition recording_hook : Hooks.Hook Db :=
  {| Hooks.hook_name := "recording_hook";
     Hooks.hook_call := fun context db =>
       (Return PyNone, setattr 7 "tag" (default PyNone (context !! "tag")) db) |}.


(** The state after registering [hooks], in order, as [before_delete]
    hooks of [Post] on a fresh registry over [db]. *)
Definition registered (hooks : list (Hooks.Hook Db)) (db : Db) : Hooks.State Db :=
  foldl (fun st hook => snd (Hooks.register "before_delete" "Post" hook st))
        (Hooks.init db) hooks.

(** The fields of the [Post] schema of the repository. *)
Definition post_fields : list FieldDefinition.t :=
  [ FieldDefinition.Make "id" "uuid" true false false None true None false;
    FieldDefinition.Make "title" "string" false false true None false (Some 255%Z) false;
    FieldDefinition.Make "content" "text" false false true None false None false;
    FieldDefinition.Make "published" "boolean" false false false
      (Some (DefaultBool false)) true None false;
    FieldDefinition.Make "view_count" "integer" false false false
      (Some (DefaultOther "0")) true None false ].

Definition post_relations : list RelationDefinition.t :=
  [ RelationDefinition.Make "many_to_one" "User" (Some "posts") None ].

(** A raw relation document with a type and a target. *)
Definition raw_relation (kind target : string) : gmap string PyVal :=
  {[ "type" := PyStr kind; "target" := PyStr target ]}.

Definition post : SchemaDefinition.t :=
  SchemaDefinition.Make "Post" "posts" [] [raw_relation "many_to_one" "User"] true true.

(** The [Widget] scenario: a uuid primary key and a required title. *)
Definition widget_fields : list FieldDefinition.t :=
  [ FieldDefinition.Make "id" "uuid" true false false None true None false;
    FieldDefinition.Make "title" "string" false false true None false None false ].

Definition widget : SchemaDefinition.t :=
  SchemaDefinition.Make "Widget" "widgets" [] [] false true.

(** A widget with a relation to itself of a kind the validator does not
    know. *)
Definition linked_widget : SchemaDefinition.t :=
  SchemaDefinition.Make "Widget" "widgets" [] [raw_relation "one_to_one" "Widget"]
    false true.

Definition widget_field_map : gmap string (list FieldDefinition.t) :=
  {[ "Widget" := widget_fields ]}.

(** A widget with a relation to a schema that does not exist. *)
Definition ghost_widget : SchemaDefinition.t :=
  SchemaDefinition.Make "Widget" "widgets" [] [raw_relation "many_to_one" "Ghost"]
    false true.

(** A schema that has no entry in [widget_field_map]. *)
Definition gadget : SchemaDefinition.t :=
  SchemaDefinition.Make "Gadget" "gadgets" [] [] false true.

(** A field of a type the validator does not know. *)
Definition colour_field : FieldDefinition.t :=
  FieldDefinition.Make "colour" "rgb" false false true None true None false.

(** A second primary key. *)
Definition serial_field : FieldDefinition.t :=
  FieldDefinition.Make "serial" "integer" true false false None true None false.

End Examples.

(** * Properties *)

(** ** The hook registry *)

Section HookFacts.

Context {W : Type}.
Implicit Types (st : Hooks.State W) (hook : Hooks.Hook W) (context : Hooks.Kwargs).

Lemma get_hooks_eq hook_type model_name st :
  Hooks.get_hooks hook_type model_name st
  = (Return (Hooks.lookup_hooks (Hooks.self_hooks st) hook_type model_name), st).
Proof. reflexivity. Qed.

(** One turn of the loop, by what the hook does. *)
Lemma hook_loop_cons hook_type model_name hook rest context st :
  Hooks.hook_loop hook_type model_name (hook :: rest) context st
  = match Hooks.hook_call hook context (Hooks.world st) with
    | (Return result, w') =>
        match result with
        | PyNone =>
            Hooks.hook_loop hook_type model_name rest context (Hooks.with_world w' st)
        | PyDict d =>
            Hooks.hook_loop hook_type model_name rest (d ∪ context) (Hooks.with_world w' st)
        | _ => (Return (Hooks.Returned result), Hooks.with_world w' st)
        end
    | (Raise e, w') =>
        (Raise e,
         Hooks.logged Hooks.ERROR (Hooks.error_message hook_type model_name hook e)
           (Hooks.with_world w' st))
    end.
Proof.
  cbn [Hooks.hook_loop]. unfold bind, try_except, Hooks.call.
  destruct (Hooks.hook_call hook context (Hooks.world st)) as [[result|e] w'].
  - destruct result; reflexivity.
  - reflexivity.
Qed.

(** Running a list of hooks is running a prefix and then, if the prefix
    ran off its end, the rest from the context and state it left. *)
Lemma hook_loop_app hook_type model_name pre post context st :
  Hooks.hook_loop hook_type model_name (pre ++ post) context st
  = match Hooks.hook_loop hook_type model_name pre context st with
    | (Return (Hooks.Fallthrough context'), st') =>
        Hooks.hook_loop hook_type model_name post context' st'
    | other => other
    end.
Proof.
  revert context st. induction pre as [|hook pre IH]; intros context st.
  - reflexivity.
  - rewrite <- app_comm_cons, !hook_loop_cons.
    destruct (Hooks.hook_call hook context (Hooks.world st)) as [[result|e] w'].
    + destruct result; cbn; try reflexivity; apply IH.
    + reflexivity.
Qed.

(** The loop never touches the registrations. *)
Lemma hook_loop_self_hooks hook_type model_name hooks context st :
  Hooks.self_hooks (snd (Hooks.hook_loop hook_type model_name hooks context st))
  = Hooks.self_hooks st.
Proof.
  revert context st. induction hooks as [|hook hooks IH]; intros context st.
  - reflexivity.
  - rewrite hook_loop_cons.
    destruct (Hooks.hook_call hook context (Hooks.world st)) as [[result|e] w'].
    + destruct result; cbn; try reflexivity; rewrite IH; reflexivity.
    + reflexivity.
Qed.

(** [execute_hooks] when the key has at least one hook: the debug record,
    the loop, and the value of the way the loop was left. *)
Lemma execute_hooks_some hook_type model_name context st hooks :
  hooks <> [] ->
  Hooks.lookup_hooks (Hooks.self_hooks st) hook_type model_name = hooks ->
  Hooks.execute_hooks hook_type model_name context st
  = match Hooks.hook_loop hook_type model_name hooks context
            (Hooks.logged Hooks.DEBUG
               (Hooks.executing_message hook_type model_name hooks) st) with
    | (Return exit, st') => (Return (Hooks.exit_result exit), st')
    | (Raise e, st') => (Raise e, st')
    end.
Proof.
  intros Hne Hl. unfold Hooks.execute_hooks.
  unfold bind at 1. rewrite get_hooks_eq, Hl.
  destruct hooks as [|hook rest]; [congruence|].
  reflexivity.
Qed.

Lemma execute_hooks_none hook_type model_name context st :
  Hooks.lookup_hooks (Hooks.self_hooks st) hook_type model_name = [] ->
  Hooks.execute_hooks hook_type model_name context st = (Return (PyDict context), st).
Proof.
  intros Hl. unfold Hooks.execute_hooks, bind. rewrite get_hooks_eq, Hl. reflexivity.
Qed.

(** What [append_hook] leaves under each key. *)
Lemma lookup_hooks_append d hook_type model_name hook hook_type' model_name' :
  Hooks.lookup_hooks (Hooks.append_hook model_name hook_type hook d) hook_type' model_name'
  = if decide (model_name' = model_name /\ hook_type' = hook_type)
    then Hooks.lookup_hooks d hook_type model_name ++ [hook]
    else Hooks.lookup_hooks d hook_type' model_name'.
Proof.
  unfold Hooks.lookup_hooks, Hooks.append_hook.
  destruct (decide (model_name' = model_name)) as [->|Hm].
  - rewrite lookup_insert_eq. cbn.
    destruct (decide (hook_type' = hook_type)) as [->|Ht].
    + rewrite lookup_insert_eq. rewrite decide_True by done. reflexivity.
    + rewrite lookup_insert_ne by done. rewrite decide_False by (intros [_ ?]; done).
      reflexivity.
  - rewrite lookup_insert_ne by done. rewrite decide_False by (intros [? _]; done).
    reflexivity.
Qed.

(** [register] with a recognised event name. *)
Lemma register_valid hook_type model_name hook st :
  hook_type ∈ Hooks.VALID_HOOKS ->
  Hooks.register hook_type model_name hook st
  = (Return tt,
     Hooks.logged Hooks.INFO
       ("Registered " +:+ hook_type +:+ " hook for " +:+ model_name +:+ ": "
        +:+ Hooks.hook_name hook)
       (Hooks.with_hooks
          (Hooks.append_hook model_name hook_type hook (Hooks.self_hooks st)) st)).
Proof.
  intros Hv. unfold Hooks.register.
  rewrite bool_decide_eq_false_2 by (intros Hn; apply Hn, Hv).
  reflexivity.
Qed.


(** C10. [get_hooks] and [execute_hooks] leave the registration map as it
    was: [get_hooks] returns the state it was given, and for a key with no
    registration it returns the empty list without creating an entry;
    [execute_hooks] ends with the map it started with (hooks act on the
    world, never on the registry).  Only [register] extends the map: with
    a recognised event it appends the callable at the end of its key's
    list and leaves the list of every other key unchanged, and with an
    unrecognised event it raises and changes nothing. *)
Theorem registry_frame st hook_type model_name context func :
  Hooks.get_hooks hook_type model_name st
    = (Return (Hooks.lookup_hooks (Hooks.self_hooks st) hook_type model_name), st)
  /\ ((Hooks.self_hooks st !! model_name) ≫= (fun by_type => by_type !! hook_type) = None ->
      Hooks.get_hooks hook_type model_name st = (Return [], st))
  /\ Hooks.self_hooks (snd (Hooks.execute_hooks hook_type model_name context st))
      = Hooks.self_hooks st
  /\ (hook_type ∈ Hooks.VALID_HOOKS ->
      let st' := snd (Hooks.register hook_type model_name func st) in
      fst (Hooks.register hook_type model_name func st) = Return tt
      /\ Hooks.lookup_hooks (Hooks.self_hooks st') hook_type model_name
         = Hooks.lookup_hooks (Hooks.self_hooks st) hook_type model_name ++ [func]
      /\ forall hook_type' model_name',
           (model_name', hook_type') <> (model_name, hook_type) ->
           Hooks.lookup_hooks (Hooks.self_hooks st') hook_type' model_name'
           = Hooks.lookup_hooks (Hooks.self_hooks st) hook_type' model_name')
  /\ (hook_type ∉ Hooks.VALID_HOOKS ->
      exists e, Hooks.register hook_type model_name func st = (Raise e, st)).
Proof.
  split; [reflexivity|]. split; [|split; [|split]].
  - intros Hnone. rewrite get_hooks_eq. f_equal. f_equal.
    unfold Hooks.lookup_hooks.
    destruct (Hooks.self_hooks st !! model_name) as [by_type|]; cbn in *.
    + rewrite Hnone. reflexivity.
    + rewrite lookup_empty. reflexivity.
  - destruct (Hooks.lookup_hooks (Hooks.self_hooks st) hook_type model_name)
      as [|hook rest] eqn:Hl.
    + rewrite (execute_hooks_none _ _ _ _ Hl). reflexivity.
    + rewrite (execute_hooks_some _ _ _ _ (hook :: rest)) by done.
      pose proof (hook_loop_self_hooks hook_type model_name (hook :: rest) context
                    (Hooks.logged Hooks.DEBUG
                       (Hooks.executing_message hook_type model_name (hook :: rest)) st))
        as Hframe.
      destruct (Hooks.hook_loop _ _ _ _ _) as [[exit|e] st']; exact Hframe.
  - intros Hv. rewrite (register_valid _ _ _ _ Hv). cbn.
    split; [reflexivity|]. split.
    + rewrite lookup_hooks_append. rewrite decide_True by done. reflexivity.
    + intros hook_type' model_name' Hne. rewrite lookup_hooks_append.
      rewrite decide_False; [reflexivity|]. intros [-> ->]. done.
  - intros Hn. unfold Hooks.register. rewrite bool_decide_eq_true_2 by done.
    eexists. reflexivity.
Qed.



End HookFacts.

(** ** The emitted delete handler *)

Section HandlerFacts.

Context {W : Type} `{Handlers.Session W}.
Implicit Types (st : Hooks.State W) (hook : Hooks.Hook W) (context : Hooks.Kwargs).

(** The handler once the entity is found: the [before_delete] hooks run
    in the world the query left, and their result picks the branch. *)
Lemma delete_handler_found st model_name pk item w1 :
  Handlers.query_first model_name pk (Hooks.world st) = (Return (Some item), w1) ->
  Handlers.delete_handler model_name pk st
  = match Hooks.execute_hooks "before_delete" model_name {[ "instance" := PyRef item ]}
            (Hooks.with_world w1 st) with
    | (Return should_delete, st2) =>
        if is_False should_delete then Handlers.abort_branch st2
        else Handlers.removal_branch model_name item st2
    | (Raise e, st2) => (Raise e, st2)
    end.
Proof.
  intros Hq. unfold Handlers.delete_handler.
  unfold bind at 1. unfold Handlers.on_world at 1. rewrite Hq.
  unfold bind at 1.
  destruct (Hooks.execute_hooks _ _ _ _) as [[v|e] st2]; [|reflexivity].
  destruct (is_False v); reflexivity.
Qed.


(** C8. For a key with no registered hook, [execute_hooks] returns the
    context it was given, as a mapping (so neither [None] nor [False]),
    and leaves the whole state (registrations, world and log) as it was.
    Hence a delete handler that finds the entity, with no [before_delete]
    hook registered for its model, continues with the removal branch. *)
Theorem execute_hooks_without_hooks st hook_type model_name context :
  Hooks.lookup_hooks (Hooks.self_hooks st) hook_type model_name = [] ->
  Hooks.execute_hooks hook_type model_name context st = (Return (PyDict context), st)
  /\ is_None (PyDict context) = false
  /\ is_False (PyDict context) = false
  /\ (hook_type = "before_delete" ->
      forall pk item w1,
        Handlers.query_first model_name pk (Hooks.world st) = (Return (Some item), w1) ->
        Handlers.delete_handler model_name pk st
        = Handlers.removal_branch model_name item (Hooks.with_world w1 st)).
Proof.
  intros Hl. split; [by apply execute_hooks_none|]. do 2 (split; [reflexivity|]).
  intros -> pk item w1 Hq.
  rewrite (delete_handler_found _ _ _ _ _ Hq).
  rewrite execute_hooks_none by exact Hl. reflexivity.
Qed.


End HandlerFacts.

(** ** Concrete runs of the registry and of the delete handler *)

Section Runs.

Import UnitOfWork Examples.

Ltac by_run := vm_compute; reflexivity.

Lemma before_delete_valid : "before_delete" ∈ Hooks.VALID_HOOKS.
Proof. apply (bool_decide_unpack _). vm_compute. exact I. Defined.

(** Registering after [soft_delete] appends; an event without hooks reads
    as the empty list and leaves the state alone; a misspelt event is
    refused and leaves the state alone. *)
Lemma registry_frame_witness :
  Hooks.lookup_hooks
    (Hooks.self_hooks (snd (Hooks.register "before_delete" "Post" tagging_hook
                              (registered [soft_delete] db0))))
    "before_delete" "Post" = [soft_delete; tagging_hook]
  /\ Hooks.get_hooks "after_delete" "Post" (registered [soft_delete] db0)
     = (Return [], registered [soft_delete] db0)
  /\ snd (Hooks.register "before_delet" "Post" tagging_hook (registered [soft_delete] db0))
     = registered [soft_delete] db0.
Proof.
  split; [|split].
  - destruct (registry_frame (registered [soft_delete] db0) "before_delete" "Post"
                instance7 tagging_hook) as (_ & _ & _ & Hreg & _).
    destruct (Hreg before_delete_valid) as (_ & Happend & _).
    rewrite Happend. vm_compute. reflexivity.
  - destruct (registry_frame (registered [soft_delete] db0) "after_delete" "Post"
                instance7 tagging_hook) as (_ & Hnone & _).
    apply Hnone. vm_compute. reflexivity.
  - destruct (registry_frame (registered [soft_delete] db0) "before_delet" "Post"
                instance7 tagging_hook) as (_ & _ & _ & _ & Hbad).
    destruct Hbad as [e He].
    + intros Hin. apply (bool_decide_pack _) in Hin. vm_compute in Hin. exact Hin.
    + rewrite He. reflexivity.
Defined.



(** With no hook registered the context comes back and the post is
    deleted. *)
Lemma execute_hooks_without_hooks_witness :
  Hooks.execute_hooks "before_delete" "Post" instance7 (Hooks.init db0)
    = (Return (PyDict instance7), Hooks.init db0)
  /\ stored (Hooks.world (snd (Handlers.delete_handler "Post" 7 (Hooks.init db0))))
       !! 7%Z = None.
Proof.
  destruct (execute_hooks_without_hooks (Hooks.init db0) "before_delete" "Post" instance7
              eq_refl) as (Hret & _ & _ & Hdel).
  split; [exact Hret|].
  rewrite (Hdel eq_refl 7%Z 7%Z db1 eq_refl). vm_compute. reflexivity.
Defined.



End Runs.

(** ** The validator *)

Section MonadFacts.

Context {S : Type}.

Lemma readonly_ret {A} (a : A) : readonly (ret (S := S) a).
Proof. intros s. reflexivity. Qed.

Lemma readonly_raise {A} (e : PyExn) : readonly (raise (S := S) (A := A) e).
Proof. intros s. reflexivity. Qed.

Lemma readonly_raise_if (cond : bool) (e : PyExn) : readonly (raise_if (S := S) cond e).
Proof. intros s. unfold raise_if. destruct cond; reflexivity. Qed.

Lemma readonly_get_state : readonly (get_state (S := S)).
Proof. intros s. reflexivity. Qed.

Lemma readonly_bind {A B} (c : M S A) (k : A -> M S B) :
  readonly c -> (forall a, readonly (k a)) -> readonly (bind c k).
Proof.
  intros Hc Hk s. unfold bind. specialize (Hc s).
  destruct (c s) as [[a|e] s']; cbn in *; subst s'; [apply Hk|reflexivity].
Qed.

Lemma readonly_for_each {A} (xs : list A) (body : A -> M S unit) :
  (forall x, readonly (body x)) -> readonly (for_each xs body).
Proof.
  intros Hbody. induction xs as [|x xs IH]; cbn [for_each].
  - apply readonly_ret.
  - apply readonly_bind; [apply Hbody|intros _; exact IH].
Qed.

Lemma readonly_getitem {V} (d : gmap string V) (key : string) :
  readonly (getitem (S := S) d key).
Proof. intros s. unfold getitem. destruct (d !! key); reflexivity. Qed.

Lemma readonly_py_in (v : PyVal) (has : string -> bool) :
  readonly (py_in (S := S) v has).
Proof. intros s. destruct v; reflexivity. Qed.

(** A sequence of two read-only steps returns when both do. *)
Lemma bind_returns {A B} (c : M S A) (k : A -> M S B) (s : S) (b : B) :
  readonly c ->
  fst (bind c k s) = Return b
  <-> exists a, fst (c s) = Return a /\ fst (k a s) = Return b.
Proof.
  intros Hc. unfold bind. specialize (Hc s).
  destruct (c s) as [[a|e] s']; cbn in *; subst s'.
  - split; [intros Hk; exists a; split; [reflexivity|exact Hk]|].
    intros (a' & [= <-] & Hk). exact Hk.
  - split; [discriminate|]. intros (a' & [=] & _).
Qed.

(** A loop of read-only bodies returns when every body does. *)
Lemma for_each_returns {A} (xs : list A) (body : A -> M S unit) (s : S) :
  (forall x, readonly (body x)) ->
  fst (for_each xs body s) = Return tt
  <-> forall x, x ∈ xs -> fst (body x s) = Return tt.
Proof.
  intros Hbody. induction xs as [|x xs IH]; cbn [for_each].
  - split; [intros _ x Hx; by apply elem_of_nil in Hx|reflexivity].
  - rewrite bind_returns by apply Hbody. split.
    + intros (a & Hx & Hrest) y Hy. apply elem_of_cons in Hy as [->|Hy].
      * destruct a. exact Hx.
      * apply IH; assumption.
    + intros Hall. exists tt. split.
      * apply Hall, list_elem_of_here.
      * apply IH. intros y Hy. apply Hall. by apply list_elem_of_further.
Qed.

Lemma raise_if_returns (cond : bool) (e : PyExn) (s : S) :
  fst (raise_if cond e s) = Return tt <-> cond = false.
Proof. unfold raise_if. destruct cond; cbn; split; congruence. Qed.

End MonadFacts.

Section ValidatorFacts.

Import ValidatorSpec.
Implicit Types (self : gmap string SchemaDefinition.t).

Lemma validate_field_type_returns field self :
  fst (Validator.validate_field_type field self) = Return tt
  <-> FieldDefinition.type field ∈ Validator.VALID_TYPES.
Proof.
  unfold Validator.validate_field_type. rewrite raise_if_returns.
  rewrite bool_decide_eq_false. split; [apply dec_stable|intros Hin Hn; exact (Hn Hin)].
Qed.

Lemma validate_required_nullable_returns field self :
  fst (Validator.validate_required_nullable field self) = Return tt
  <-> ~ (FieldDefinition.required field = true /\ FieldDefinition.nullable field = true
         /\ FieldDefinition.primary field = false).
Proof.
  unfold Validator.validate_required_nullable. rewrite raise_if_returns.
  destruct (FieldDefinition.required field), (FieldDefinition.nullable field),
    (FieldDefinition.primary field); cbn; intuition congruence.
Qed.

Lemma validate_primary_key_returns schema fields self :
  fst (Validator.validate_primary_key schema fields self) = Return tt
  <-> one_primary fields.
Proof.
  unfold Validator.validate_primary_key, one_primary.
  rewrite bind_returns by apply readonly_raise_if.
  setoid_rewrite raise_if_returns.
  destruct (length (List.filter FieldDefinition.primary fields)) as [|[|n]]; cbn.
  - split; [intros (_ & [=] & _)|discriminate].
  - split; [reflexivity|]. intros _. exists tt. split; reflexivity.
  - split; [intros (_ & _ & [=])|discriminate].
Qed.

Lemma py_in_returns_true (v : PyVal) (has : string -> bool) self :
  fst (py_in v has self) = Return true <-> exists s, v = PyStr s /\ has s = true.
Proof.
  destruct v as [| | |s0| | |]; cbn; split; try discriminate;
    try (intros (s1 & [=] & _); fail).
  - intros [= Hs]. eauto.
  - intros (s1 & [= <-] & Hs). congruence.
Qed.

Lemma relation_get_str relation key s :
  Validator.relation_get relation key = PyStr s <-> relation !! key = Some (PyStr s).
Proof.
  unfold Validator.relation_get. destruct (relation !! key) as [v|]; cbn.
  - split; congruence.
  - split; discriminate.
Qed.

Lemma readonly_relation_checks schema relation :
  readonly (S := gmap string SchemaDefinition.t)
    (do known <- py_in (Validator.relation_get relation "type")
                   (fun s => bool_decide (s ∈ Validator.VALID_RELATION_TYPES));
     run raise_if (negb known)
           (Validator.ValidationError
              ("Invalid relation type '" +:+ py_str (Validator.relation_get relation "type")
               +:+ "' in schema '" +:+ SchemaDefinition.name schema +:+ "'. "
               +:+ "Valid types: " +:+ join ", " (sorted Validator.VALID_RELATION_TYPES)));
     raise_if (negb (truthy (Validator.relation_get relation "target")))
       (Validator.ValidationError
          ("Relation in schema '" +:+ SchemaDefinition.name schema
           +:+ "' missing 'target' field"))).
Proof.
  apply readonly_bind; [apply readonly_py_in|]. intros known.
  apply readonly_bind; [apply readonly_raise_if|]. intros _. apply readonly_raise_if.
Qed.

Lemma readonly_validate_relations schema : readonly (Validator.validate_relations schema).
Proof. apply readonly_for_each. intros relation. apply readonly_relation_checks. Qed.

Lemma validate_relations_returns schema self :
  fst (Validator.validate_relations schema self) = Return tt
  <-> forall relation, relation ∈ SchemaDefinition.relations schema ->
        (exists kind, relation !! "type" = Some (PyStr kind)
                      /\ kind ∈ Validator.VALID_RELATION_TYPES)
        /\ truthy (Validator.relation_get relation "target") = true.
Proof.
  unfold Validator.validate_relations.
  rewrite for_each_returns by (intros relation; apply readonly_relation_checks).
  apply forall_proper; intros relation.
  enough (Hbody :
    fst ((do known <- py_in (Validator.relation_get relation "type")
                        (fun s => bool_decide (s ∈ Validator.VALID_RELATION_TYPES));
          run raise_if (negb known)
                (Validator.ValidationError
                   ("Invalid relation type '"
                    +:+ py_str (Validator.relation_get relation "type")
                    +:+ "' in schema '" +:+ SchemaDefinition.name schema +:+ "'. "
                    +:+ "Valid types: "
                    +:+ join ", " (sorted Validator.VALID_RELATION_TYPES)));
          raise_if (negb (truthy (Validator.relation_get relation "target")))
            (Validator.ValidationError
               ("Relation in schema '" +:+ SchemaDefinition.name schema
                +:+ "' missing 'target' field"))) self) = Return tt
    <-> (exists kind, relation !! "type" = Some (PyStr kind)
                      /\ kind ∈ Validator.VALID_RELATION_TYPES)
        /\ truthy (Validator.relation_get relation "target") = true)
    by (rewrite Hbody; reflexivity).
  rewrite bind_returns by apply readonly_py_in.
  setoid_rewrite (bind_returns (S := gmap string SchemaDefinition.t));
    [|intros; apply readonly_raise_if..].
  setoid_rewrite raise_if_returns.
  split.
  - intros (known & Hin & [] & Hk & Ht).
    apply raise_if_returns in Hk.
    apply negb_false_iff in Hk, Ht. subst known.
    apply py_in_returns_true in Hin as (kind & Hkind & Hhas).
    apply relation_get_str in Hkind. apply bool_decide_eq_true in Hhas. eauto.
  - intros [(kind & Hkind & Hvalid) Ht].
    exists true. split.
    + apply py_in_returns_true. exists kind. split.
      * by apply relation_get_str.
      * by apply bool_decide_eq_true.
    + exists tt. split; [reflexivity|]. rewrite Ht. reflexivity.
Qed.

Lemma readonly_field_checks field :
  readonly (S := gmap string SchemaDefinition.t)
    (run Validator.validate_field_type field; Validator.validate_required_nullable field).
Proof.
  apply readonly_bind; [apply readonly_raise_if|]. intros _. apply readonly_raise_if.
Qed.

Lemma readonly_validate_schema schema fields :
  readonly (Validator.validate_schema schema fields).
Proof.
  apply readonly_bind.
  { apply readonly_for_each. intros field. apply readonly_field_checks. }
  intros _. apply readonly_bind.
  { apply readonly_bind; [apply readonly_raise_if|]. intros _. apply readonly_raise_if. }
  intros _. apply readonly_validate_relations.
Qed.

Lemma validate_schema_returns schema fields self :
  fst (Validator.validate_schema schema fields self) = Return tt
  <-> (forall f, f ∈ fields -> field_ok f)
      /\ one_primary fields
      /\ forall relation, relation ∈ SchemaDefinition.relations schema ->
           (exists kind, relation !! "type" = Some (PyStr kind)
                         /\ kind ∈ Validator.VALID_RELATION_TYPES)
           /\ truthy (Validator.relation_get relation "target") = true.
Proof.
  unfold Validator.validate_schema.
  rewrite bind_returns
    by (apply readonly_for_each; intros field; apply readonly_field_checks).
  split.
  - intros ([] & Hfields & Hrest).
    rewrite for_each_returns in Hfields by (intros field; apply readonly_field_checks).
    rewrite bind_returns in Hrest
      by (apply readonly_bind; [apply readonly_raise_if|intros _; apply readonly_raise_if]).
    destruct Hrest as ([] & Hpk & Hrel).
    pose proof (proj1 (validate_primary_key_returns _ _ _) Hpk) as Hone.
    pose proof (proj1 (validate_relations_returns _ _) Hrel) as Hrels.
    split; [|split; assumption].
    intros f Hf. specialize (Hfields f Hf).
    rewrite bind_returns in Hfields by apply readonly_raise_if.
    destruct Hfields as ([] & Hty & Hrn).
    split.
    + by apply (validate_field_type_returns f self).
    + by apply (validate_required_nullable_returns f self).
  - intros (Hfields & Hpk & Hrel). exists tt. split.
    + apply for_each_returns; [intros field; apply readonly_field_checks|].
      intros f Hf. destruct (Hfields f Hf) as [Hty Hrn].
      apply bind_returns; [apply readonly_raise_if|]. exists tt. split.
      * by apply validate_field_type_returns.
      * by apply validate_required_nullable_returns.
    + apply bind_returns;
        [apply readonly_bind; [apply readonly_raise_if|intros _; apply readonly_raise_if]|].
      exists tt. split.
      * by apply (proj2 (validate_primary_key_returns _ _ _)).
      * by apply (proj2 (validate_relations_returns _ _)).
Qed.

(** The names indexed by [self.schemas] are the names of the schemas. *)
Lemma index_by_name_lookup schemas name :
  is_Some (Validator.index_by_name schemas !! name)
  <-> name ∈ map SchemaDefinition.name schemas.
Proof.
  unfold Validator.index_by_name.
  enough (Hgen : forall m : gmap string SchemaDefinition.t,
             is_Some (foldl (fun m s => <[SchemaDefinition.name s := s]> m) m schemas !! name)
             <-> is_Some (m !! name) \/ name ∈ map SchemaDefinition.name schemas).
  { rewrite Hgen, lookup_empty. split; [intros [[? [=]]|?]; assumption|by right]. }
  induction schemas as [|s schemas IH]; intros m; cbn [foldl map].
  - split; [by left|]. intros [?|Hin]; [assumption|by apply elem_of_nil in Hin].
  - rewrite IH, elem_of_cons.
    destruct (decide (name = SchemaDefinition.name s)) as [->|Hne].
    + rewrite lookup_insert_eq. split; [intros _; right; by left|intros _; left; eauto].
    + rewrite lookup_insert_ne by done. split.
      * intros [?|?]; [by left|right; by right].
      * intros [?|[?|?]]; [by left|done|by right].
Qed.

(** One turn of the inner loop of the second pass of [validate_all]. *)
Lemma target_check_returns (schema_name : string) (relation : gmap string PyVal) self :
  fst ((if truthy (Validator.relation_get relation "target") then
          do self <- get_state;
          do present <- py_in (Validator.relation_get relation "target")
                          (fun s => bool_decide (is_Some (self !! s)));
          raise_if (negb present)
            (Validator.ValidationError
               ("Relation target '" +:+ py_str (Validator.relation_get relation "target")
                +:+ "' in schema '" +:+ schema_name +:+ "' does not exist"))
        else ret tt) self) = Return tt
  <-> (truthy (Validator.relation_get relation "target") = true ->
       exists target, relation !! "target" = Some (PyStr target)
                      /\ is_Some (self !! target)).
Proof.
  destruct (truthy (Validator.relation_get relation "target")) eqn:Ht.
  2:{ cbn. split; [discriminate|reflexivity]. }
  unfold bind at 1. cbn [get_state].
  rewrite bind_returns by apply readonly_py_in.
  setoid_rewrite raise_if_returns. split.
  - intros (present & Hin & Hp) _. apply negb_false_iff in Hp. subst present.
    apply py_in_returns_true in Hin as (target & Htarget & Hhas).
    exists target. split; [by apply relation_get_str|by apply bool_decide_eq_true in Hhas].
  - intros Hex. destruct (Hex eq_refl) as (target & Htarget & Hsome).
    exists true. split; [|reflexivity].
    apply py_in_returns_true. exists target.
    split; [by apply relation_get_str|by apply bool_decide_eq_true].
Qed.

Lemma readonly_target_check (schema_name : string) (relation : gmap string PyVal) :
  readonly (S := gmap string SchemaDefinition.t)
    (if truthy (Validator.relation_get relation "target") then
       do self <- get_state;
       do present <- py_in (Validator.relation_get relation "target")
                       (fun s => bool_decide (is_Some (self !! s)));
       raise_if (negb present)
         (Validator.ValidationError
            ("Relation target '" +:+ py_str (Validator.relation_get relation "target")
             +:+ "' in schema '" +:+ schema_name +:+ "' does not exist"))
     else ret tt).
Proof.
  destruct (truthy _); [|apply readonly_ret].
  apply readonly_bind; [apply readonly_get_state|]. intros self.
  apply readonly_bind; [apply readonly_py_in|]. intros present. apply readonly_raise_if.
Qed.

Lemma getitem_returns {V} (d : gmap string V) (key : string) (v : V) self :
  fst (getitem d key self) = Return v <-> d !! key = Some v.
Proof. unfold getitem. destruct (d !! key); cbn; split; congruence. Qed.

Lemma readonly_first_pass field_map schema :
  readonly (S := gmap string SchemaDefinition.t)
    (do fields <- getitem field_map (SchemaDefinition.name schema);
     Validator.validate_schema schema fields).
Proof.
  apply readonly_bind; [apply readonly_getitem|]. intros fields.
  apply readonly_validate_schema.
Qed.

Lemma readonly_second_pass schema :
  readonly (S := gmap string SchemaDefinition.t)
    (for_each (SchemaDefinition.relations schema) (fun relation =>
       if truthy (Validator.relation_get relation "target") then
         do self <- get_state;
         do present <- py_in (Validator.relation_get relation "target")
                         (fun s => bool_decide (is_Some (self !! s)));
         raise_if (negb present)
           (Validator.ValidationError
              ("Relation target '" +:+ py_str (Validator.relation_get relation "target")
               +:+ "' in schema '" +:+ SchemaDefinition.name schema
               +:+ "' does not exist"))
       else ret tt)).
Proof. apply readonly_for_each. intros relation. apply readonly_target_check. Qed.

(** [validate_all], pass by pass, on the index it has just built. *)
Lemma validate_all_returns schemas field_map self :
  fst (Validator.validate_all schemas field_map self) = Return tt
  <-> (forall schema, schema ∈ schemas ->
         exists fields,
           field_map !! SchemaDefinition.name schema = Some fields
           /\ fst (Validator.validate_schema schema fields
                     (Validator.index_by_name schemas)) = Return tt)
      /\ (forall schema, schema ∈ schemas ->
            forall relation, relation ∈ SchemaDefinition.relations schema ->
              truthy (Validator.relation_get relation "target") = true ->
              exists target, relation !! "target" = Some (PyStr target)
                             /\ is_Some (Validator.index_by_name schemas !! target)).
Proof.
  unfold Validator.validate_all. unfold bind at 1. cbn [modify].
  rewrite bind_returns
    by (apply readonly_for_each; intros schema; apply readonly_first_pass).
  split.
  - intros ([] & Hfirst & Hsecond).
    rewrite for_each_returns in Hfirst by (intros schema; apply readonly_first_pass).
    rewrite for_each_returns in Hsecond by (intros schema; apply readonly_second_pass).
    split.
    + intros schema Hin. specialize (Hfirst schema Hin).
      rewrite bind_returns in Hfirst by apply readonly_getitem.
      destruct Hfirst as (fields & Hget & Hok).
      exists fields. split; [exact (proj1 (getitem_returns _ _ _ _) Hget)|exact Hok].
    + intros schema Hin relation Hrel. specialize (Hsecond schema Hin).
      rewrite for_each_returns in Hsecond by (intros r; apply readonly_target_check).
      exact (proj1 (target_check_returns (SchemaDefinition.name schema) relation _)
               (Hsecond relation Hrel)).
  - intros [Hfirst Hsecond]. exists tt. split.
    + apply for_each_returns; [intros schema; apply readonly_first_pass|].
      intros schema Hin. destruct (Hfirst schema Hin) as (fields & Hget & Hok).
      apply bind_returns; [apply readonly_getitem|].
      exists fields. split; [exact (proj2 (getitem_returns _ _ _ _) Hget)|exact Hok].
    + apply for_each_returns; [intros schema; apply readonly_second_pass|].
      intros schema Hin.
      apply for_each_returns; [intros r; apply readonly_target_check|].
      intros relation Hrel.
      apply (proj2 (target_check_returns (SchemaDefinition.name schema) relation _)).
      exact (Hsecond schema Hin relation Hrel).
Qed.

Lemma truthy_str (s : string) : truthy (PyStr s) = true <-> s <> "".
Proof.
  cbn. rewrite negb_true_iff. split.
  - intros Hneq ->. discriminate.
  - intros Hne. apply String.eqb_neq. exact Hne.
Qed.

(** C2, as the code has it.  [validate_all] returns, raising nothing, if
    and only if every schema has an entry in the field map in which
    exactly one field is primary, every field type is one of the eleven
    and no field is both required and nullable unless primary, and every
    relation has a type among the three supported kinds and a non-empty
    target that names one of the schemas. *)
Theorem validate_all_accepts schemas field_map self :
  fst (Validator.validate_all schemas field_map self) = Return tt
  <-> accepts schemas field_map.
Proof.
  rewrite validate_all_returns. unfold accepts. split.
  - intros [Hfirst Hsecond] schema Hin.
    destruct (Hfirst schema Hin) as (fields & Hget & Hok).
    apply validate_schema_returns in Hok as (Hfields & Hone & Hrels).
    exists fields. do 3 (split; [assumption|]).
    intros relation Hrel. destruct (Hrels relation Hrel) as [Hkind Htruthy].
    split; [exact Hkind|].
    destruct (Hsecond schema Hin relation Hrel Htruthy) as (target & Htarget & Hsome).
    exists target. split; [exact Htarget|]. split.
    + apply truthy_str. unfold Validator.relation_get in Htruthy.
      rewrite Htarget in Htruthy. exact Htruthy.
    + by apply index_by_name_lookup.
  - intros Hacc. split.
    + intros schema Hin. destruct (Hacc schema Hin) as (fields & Hget & Hone & Hfields & Hrels).
      exists fields. split; [exact Hget|].
      apply validate_schema_returns. do 2 (split; [assumption|]).
      intros relation Hrel.
      destruct (Hrels relation Hrel) as [Hkind (target & Htarget & Hne & _)].
      split; [exact Hkind|]. unfold Validator.relation_get. rewrite Htarget.
      by apply truthy_str.
    + intros schema Hin relation Hrel _.
      destruct (Hacc schema Hin) as (fields & _ & _ & _ & Hrels).
      destruct (Hrels relation Hrel) as [_ (target & Htarget & _ & Hnames)].
      exists target. split; [exact Htarget|]. by apply index_by_name_lookup.
Qed.

End ValidatorFacts.

Section ValidatorRuns.

Import ValidatorSpec Examples.

(** The widget scenario is accepted. *)
Lemma validate_all_accepts_witness : accepts [widget] widget_field_map.
Proof.
  apply (proj1 (validate_all_accepts [widget] widget_field_map Validator.init)).
  vm_compute. reflexivity.
Defined.

(** C2 as stated fails from right to left: the linked widget meets every
    condition the claim lists (one primary field, known field types, no
    required nullable field, a relation target that exists), and
    [validate_all] raises a [ValidationError] for its relation type. *)
Lemma validate_all_rejects_unknown_relation_kind :
  spec_accepts [linked_widget] widget_field_map
  /\ fst (Validator.validate_all [linked_widget] widget_field_map Validator.init)
     = Raise (Validator.ValidationError
                ("Invalid relation type 'one_to_one' in schema 'Widget'. "
                 +:+ "Valid types: many_to_many, many_to_one, one_to_many")).
Proof.
  split; [|vm_compute; reflexivity].
  intros schema Hin. apply list_elem_of_singleton in Hin as ->.
  exists widget_fields. split; [vm_compute; reflexivity|].
  split; [reflexivity|]. split.
  - intros f Hf. unfold widget_fields in Hf.
    apply elem_of_cons in Hf as [->|Hf];
      [|apply list_elem_of_singleton in Hf as ->];
      (split; [apply (bool_decide_unpack _); vm_compute; exact I
              |cbn; intros (? & ? & ?); discriminate]).
  - intros relation Hrel. cbn in Hrel. apply list_elem_of_singleton in Hrel as ->.
    exists "Widget". split; [vm_compute; reflexivity|].
    apply (bool_decide_unpack _). vm_compute. exact I.
Qed.

End ValidatorRuns.

(** ** The model generator *)

Section ModelFacts.

Import ModelGenerator ModelSpec.

Lemma lookup_map {A B} (f : A -> B) (l : list A) (i : nat) (x : A) :
  l !! i = Some x -> map f l !! i = Some (f x).
Proof.
  intros Hl. change (map f l) with (f <$> l). rewrite list_lookup_fmap, Hl. reflexivity.
Qed.

(** C3, as the code has it.  With timestamps or soft delete enabled, the
    entries joined into the class body are: the declared field lines in
    field order, then [created_at] and [updated_at] (if timestamps), then
    [deleted_at] (if soft delete), and only then the relation lines in
    relation order.  The cross-cutting columns come after every field
    line and before every relation line. *)
Theorem cross_cutting_columns_placement output_dir schema fields relations :
  SchemaDefinition.timestamps schema || SchemaDefinition.soft_delete schema = true ->
  let lines := class_body_lines schema fields relations in
  let cross := cross_cutting schema in
  generate_model output_dir schema fields relations
    = join nl (header_lines schema ++ [join nl lines]) +:+ nl
  /\ cross
     = (if SchemaDefinition.timestamps schema
        then [ "    created_at = Column(DateTime, default=datetime.utcnow, nullable=False)";
               "    updated_at = Column(DateTime, default=datetime.utcnow, onupdate=datetime.utcnow, nullable=False)" ]
        else [])
       ++ (if SchemaDefinition.soft_delete schema
           then [ "    deleted_at = Column(DateTime, nullable=True)" ]
           else [])
  /\ cross <> []
  /\ (forall i f, fields !! i = Some f ->
        lines !! i = Some (_generate_field_code f))
  /\ (forall k line, cross !! k = Some line ->
        lines !! (length fields + k)%nat = Some line)
  /\ (forall j r, relations !! j = Some r ->
        lines !! (length fields + length cross + j)%nat
        = Some (_generate_relation_code r (SchemaDefinition.name schema))).
Proof.
  intros Hflags lines cross.
  assert (Hsplit : lines = field_lines fields ++ cross ++ relation_lines schema relations).
  { unfold lines, class_body_lines, cross, cross_cutting. by rewrite <- app_assoc. }
  assert (Hlen : length (field_lines fields) = length fields).
  { unfold field_lines. apply length_map. }
  split; [reflexivity|]. split; [reflexivity|]. split; [|split; [|split]].
  - unfold cross, cross_cutting, timestamp_fields, soft_delete_field.
    destruct (SchemaDefinition.timestamps schema), (SchemaDefinition.soft_delete schema);
      cbn in *; congruence.
  - intros i f Hf. rewrite Hsplit. rewrite lookup_app_l.
    + by apply lookup_map.
    + rewrite Hlen. by eapply lookup_lt_Some.
  - intros k line Hk. rewrite Hsplit.
    rewrite lookup_app_r by lia. rewrite Hlen.
    replace (length fields + k - length fields)%nat with k by lia.
    rewrite lookup_app_l; [exact Hk|by eapply lookup_lt_Some].
  - intros j r Hr. rewrite Hsplit.
    rewrite lookup_app_r by lia. rewrite Hlen.
    rewrite lookup_app_r by lia.
    replace (length fields + length cross + j - length fields - length cross)%nat
      with j by lia.
    unfold relation_lines.
    by apply (lookup_map (fun rel => _generate_relation_code rel (SchemaDefinition.name schema))).
Qed.

End ModelFacts.

Section ModelRuns.

Import ModelGenerator ModelSpec Examples.

(** In the model of [Post] the relation to [User] is the entry after the
    three cross-cutting columns. *)
Lemma cross_cutting_columns_placement_witness :
  class_body_lines post post_fields post_relations !! 5%nat
    = Some "    created_at = Column(DateTime, default=datetime.utcnow, nullable=False)"
  /\ class_body_lines post post_fields post_relations !! 7%nat
     = Some "    deleted_at = Column(DateTime, nullable=True)"
  /\ class_body_lines post post_fields post_relations !! 8%nat
     = Some (_generate_relation_code
               (RelationDefinition.Make "many_to_one" "User" (Some "posts") None) "Post").
Proof.
  destruct (cross_cutting_columns_placement "app/models" post post_fields post_relations
              eq_refl) as (_ & _ & _ & _ & Hcross & Hrel).
  split; [|split].
  - apply (Hcross 0%nat). reflexivity.
  - apply (Hcross 2%nat). reflexivity.
  - apply (Hrel 0%nat). reflexivity.
Defined.

(** C3 as stated fails on [Post]: timestamps and soft delete are on and
    there is a relation, yet the class body does not end with the
    cross-cutting columns; its last entry is the relation. *)
Lemma relation_lines_follow_cross_cutting_columns :
  SchemaDefinition.timestamps post = true
  /\ SchemaDefinition.soft_delete post = true
  /\ post_relations <> []
  /\ ~ spec_order post post_fields post_relations
  /\ last (class_body_lines post post_fields post_relations)
     = Some (_generate_relation_code
               (RelationDefinition.Make "many_to_one" "User" (Some "posts") None) "Post").
Proof.
  split; [reflexivity|]. split; [reflexivity|]. split; [discriminate|]. split.
  - unfold spec_order. intros Heq.
    apply (f_equal (fun l => l !! 5%nat)) in Heq. vm_compute in Heq. discriminate Heq.
  - vm_compute. reflexivity.
Qed.

End ModelRuns.

(** ** The API generator *)

Section ApiFacts.

Import APIGenerator ApiSpec.











End ApiFacts.

Section ApiRuns.

Import APIGenerator ApiSpec Examples.





End ApiRuns.

(** ** More on the hook registry *)

Section HookMoreFacts.

Context {W : Type}.
Implicit Types (st : Hooks.State W) (hook : Hooks.Hook W) (context : Hooks.Kwargs).

(** A value that leaves the loop early is neither [None] nor a mapping,
    and a context that falls through has kept every key it started
    with. *)
Lemma hook_loop_exit hook_type model_name hooks context st exit st' :
  Hooks.hook_loop hook_type model_name hooks context st = (Return exit, st') ->
  match exit with
  | Hooks.Fallthrough context' => dom context ⊆ dom context'
  | Hooks.Returned result => is_None result = false /\ is_dict result = false
  end.
Proof.
  revert context st. induction hooks as [|hook hooks IH]; intros context st.
  - intros [= <- <-]. reflexivity.
  - rewrite hook_loop_cons.
    destruct (Hooks.hook_call hook context (Hooks.world st)) as [[result|e] w'];
      [|discriminate].
    destruct result; try (intros [= <- <-]; split; reflexivity).
    + apply IH.
    + intros Hrest. apply IH in Hrest. destruct exit; [|exact Hrest].
      etrans; [|exact Hrest]. rewrite dom_union. set_solver.
Qed.

(** X1. Short circuit.  When the hooks before it have run off without
    returning early and a hook returns a value that is neither [None] nor
    a mapping, [execute_hooks] returns that value at once, in the state
    that hook left: no later hook of the key runs, whatever event the
    hooks are registered for. *)
Theorem execute_hooks_short_circuit st hook_type model_name context
    pre hook post context' st' result w' :
  Hooks.lookup_hooks (Hooks.self_hooks st) hook_type model_name = pre ++ hook :: post ->
  Hooks.hook_loop hook_type model_name pre context
    (Hooks.logged Hooks.DEBUG
       (Hooks.executing_message hook_type model_name (pre ++ hook :: post)) st)
    = (Return (Hooks.Fallthrough context'), st') ->
  Hooks.hook_call hook context' (Hooks.world st') = (Return result, w') ->
  is_None result = false ->
  is_dict result = false ->
  Hooks.execute_hooks hook_type model_name context st
  = (Return result, Hooks.with_world w' st').
Proof.
  intros Hl Hpre Hcall Hnone Hdict.
  rewrite (execute_hooks_some _ _ _ _ (pre ++ hook :: post)); [|by destruct pre|done].
  rewrite hook_loop_app, Hpre, hook_loop_cons, Hcall.
  destruct result; try discriminate; reflexivity.
Qed.

(** X2. [execute_hooks] never returns [None]; and when it returns a
    mapping, the mapping has every key of the context it was called
    with: hooks can add keys and replace values, never drop a key. *)
Theorem execute_hooks_result st hook_type model_name context v st' :
  Hooks.execute_hooks hook_type model_name context st = (Return v, st') ->
  v <> PyNone
  /\ forall d, v = PyDict d -> dom context ⊆ dom d.
Proof.
  destruct (Hooks.lookup_hooks (Hooks.self_hooks st) hook_type model_name)
    as [|hook rest] eqn:Hl.
  - rewrite (execute_hooks_none _ _ _ _ Hl). intros [= <- <-].
    split; [discriminate|]. intros d [= <-]. reflexivity.
  - rewrite (execute_hooks_some _ _ _ _ (hook :: rest)) by done.
    destruct (Hooks.hook_loop _ _ _ _ _) as [[exit|e] st''] eqn:Hloop; [|discriminate].
    intros [= <- <-]. apply hook_loop_exit in Hloop.
    destruct exit as [context'|result]; cbn.
    + split; [discriminate|]. intros d [= <-]. exact Hloop.
    + destruct Hloop as [Hnone Hdict]. split.
      * intros ->. discriminate.
      * intros d ->. discriminate.
Qed.




(** [execute_hooks] ends with the registrations it started with. *)
Lemma execute_hooks_self_hooks st hook_type model_name context :
  Hooks.self_hooks (snd (Hooks.execute_hooks hook_type model_name context st))
  = Hooks.self_hooks st.
Proof.
  destruct (Hooks.lookup_hooks (Hooks.self_hooks st) hook_type model_name)
    as [|hook rest] eqn:Hl.
  - rewrite (execute_hooks_none _ _ _ _ Hl). reflexivity.
  - rewrite (execute_hooks_some _ _ _ _ (hook :: rest)) by done.
    pose proof (hook_loop_self_hooks hook_type model_name (hook :: rest) context
                  (Hooks.logged Hooks.DEBUG
                     (Hooks.executing_message hook_type model_name (hook :: rest)) st))
      as Hframe.
    destruct (Hooks.hook_loop _ _ _ _ _) as [[exit|e] st']; exact Hframe.
Qed.

Lemma well_formed_same_hooks st st' :
  Hooks.self_hooks st' = Hooks.self_hooks st ->
  HookTools.well_formed st -> HookTools.well_formed st'.
Proof. unfold HookTools.well_formed. intros ->. auto. Qed.

Lemma register_well_formed st hook_type model_name func :
  HookTools.well_formed st ->
  HookTools.well_formed (snd (Hooks.register hook_type model_name func st)).
Proof.
  intros Hwf. destruct (decide (hook_type ∈ Hooks.VALID_HOOKS)) as [Hv|Hn].
  - rewrite (register_valid _ _ _ _ Hv). cbn.
    intros model_name' by_type hook_type' funcs. cbn. unfold Hooks.append_hook.
    destruct (decide (model_name' = model_name)) as [->|Hm].
    + rewrite lookup_insert_eq. intros [= <-].
      destruct (decide (hook_type' = hook_type)) as [->|Ht].
      * rewrite lookup_insert_eq. intros [= <-]. split; [exact Hv|].
        intros Happ. by apply app_eq_nil in Happ as [_ [=]].
      * rewrite lookup_insert_ne by done.
        destruct (Hooks.self_hooks st !! model_name) as [by_type|] eqn:Hby; cbn.
        -- intros Hfuncs. exact (Hwf _ _ _ _ Hby Hfuncs).
        -- rewrite lookup_empty. discriminate.
    + rewrite lookup_insert_ne by done. apply Hwf.
  - unfold Hooks.register. rewrite bool_decide_eq_true_2 by done. exact Hwf.
Qed.

Lemma reachable_well_formed st : HookTools.reachable st -> HookTools.well_formed st.
Proof.
  induction 1 as [w|st ht mn f _ IH|st ht mn _ IH|st ht mn ctx _ IH|st _ IH|st w _ IH].
  - intros model_name by_type hook_type funcs. cbn. rewrite lookup_empty. discriminate.
  - by apply register_well_formed.
  - exact IH.
  - eapply well_formed_same_hooks; [apply execute_hooks_self_hooks|exact IH].
  - exact IH.
  - exact IH.
Qed.

(** X4. However a registry has been used since it was created, every
    list it stores sits under one of the six event names and is not
    empty.  So executing an unrecognised event name is a silent no-op:
    [get_hooks] finds nothing, and [execute_hooks] returns the context
    and changes nothing (only [register] refuses such a name). *)
Theorem unknown_event_is_a_no_op st hook_type model_name context :
  HookTools.reachable st ->
  hook_type ∉ Hooks.VALID_HOOKS ->
  HookTools.well_formed st
  /\ Hooks.get_hooks hook_type model_name st = (Return [], st)
  /\ Hooks.execute_hooks hook_type model_name context st = (Return (PyDict context), st).
Proof.
  intros Hreach Hn. pose proof (reachable_well_formed st Hreach) as Hwf.
  assert (Hl : Hooks.lookup_hooks (Hooks.self_hooks st) hook_type model_name = []).
  { unfold Hooks.lookup_hooks.
    destruct (Hooks.self_hooks st !! model_name) as [by_type|] eqn:Hby; cbn.
    - destruct (by_type !! hook_type) as [funcs|] eqn:Hfuncs; [|reflexivity].
      destruct (Hwf _ _ _ _ Hby Hfuncs) as [Hv _]. by destruct Hn.
    - rewrite lookup_empty. reflexivity. }
  split; [exact Hwf|]. split.
  - rewrite get_hooks_eq, Hl. reflexivity.
  - by apply execute_hooks_none.
Qed.


End HookMoreFacts.

(** ** More on the validator *)

Section LoopFacts.

Context {S : Type}.

(** A loop over a concatenation is the loop over the first part followed
    by the loop over the second. *)
Lemma for_each_app {A} (xs ys : list A) (body : A -> M S unit) (s : S) :
  for_each (xs ++ ys) body s
  = match for_each xs body s with
    | (Return _, s') => for_each ys body s'
    | (Raise e, s') => (Raise e, s')
    end.
Proof.
  revert s. induction xs as [|x xs IH]; intros s; [reflexivity|].
  cbn [app for_each]. unfold bind.
  destruct (body x s) as [[[]|e] s']; [apply IH|reflexivity].
Qed.

(** A loop of read-only bodies that all return, returns and leaves the
    state alone. *)
Lemma for_each_all_return {A} (xs : list A) (body : A -> M S unit) (s : S) :
  (forall x, readonly (body x)) ->
  (forall x, x ∈ xs -> fst (body x s) = Return tt) ->
  for_each xs body s = (Return tt, s).
Proof.
  intros Hro Hall.
  pose proof (proj2 (for_each_returns xs body s Hro) Hall) as Hfst.
  pose proof (readonly_for_each xs body Hro s) as Hsnd.
  destruct (for_each xs body s) as [o s']. cbn in *. by subst.
Qed.

(** The first body that raises ends a loop of read-only bodies. *)
Lemma for_each_first_raise {A} (pre post : list A) (x : A) (body : A -> M S unit)
    (s : S) (e : PyExn) :
  (forall y, readonly (body y)) ->
  (forall y, y ∈ pre -> fst (body y s) = Return tt) ->
  fst (body x s) = Raise e ->
  for_each (pre ++ x :: post) body s = (Raise e, s).
Proof.
  intros Hro Hpre Hx. rewrite for_each_app, (for_each_all_return pre body s Hro Hpre).
  cbn [for_each]. unfold bind. pose proof (Hro x s) as Hs.
  destruct (body x s) as [[[]|e'] s']; cbn in *; [discriminate|]. congruence.
Qed.

End LoopFacts.

Section ValidatorMoreFacts.

Import ValidatorSpec ValidatorInputs.
Implicit Types (self : gmap string SchemaDefinition.t).







(** X7. A schema without an entry in the field map stops [validate_all]
    with a [KeyError] on its name, once the schemas before it have
    passed; [self.schemas] has been set by then. *)
Theorem validate_all_missing_fields pre schema post field_map self :
  (forall earlier, earlier ∈ pre ->
     exists fields,
       field_map !! SchemaDefinition.name earlier = Some fields
       /\ fst (Validator.validate_schema earlier fields
                 (Validator.index_by_name (pre ++ schema :: post))) = Return tt) ->
  field_map !! SchemaDefinition.name schema = None ->
  Validator.validate_all (pre ++ schema :: post) field_map self
  = (Raise (Exn "KeyError" ("'" +:+ SchemaDefinition.name schema +:+ "'")),
     Validator.index_by_name (pre ++ schema :: post)).
Proof.
  intros Hpre Hmissing. unfold Validator.validate_all. unfold bind at 1. cbn [modify].
  unfold bind at 1.
  rewrite (for_each_first_raise pre post schema _ _
             (Exn "KeyError" ("'" +:+ SchemaDefinition.name schema +:+ "'"))).
  - reflexivity.
  - intros y. apply readonly_first_pass.
  - intros earlier Hin. destruct (Hpre earlier Hin) as (fields & Hfields & Hok).
    unfold bind, getitem. rewrite Hfields. exact Hok.
  - unfold bind, getitem. rewrite Hmissing. reflexivity.
Qed.

Lemma field_checks_return (f : FieldDefinition.t) self :
  field_ok f ->
  fst ((run Validator.validate_field_type f; Validator.validate_required_nullable f) self)
  = Return tt.
Proof.
  intros [Hty Hrn]. apply bind_returns; [apply readonly_raise_if|]. exists tt. split.
  - by apply validate_field_type_returns.
  - by apply validate_required_nullable_returns.
Qed.

(** X8. Validation is fail-fast over the fields, in document order: the
    first field that breaks a rule decides the error, and nothing after
    it is looked at.  If its type is not one of the eleven the error is
    the invalid-type one, naming the type and the field (also when the
    field is required and nullable as well); otherwise it is the
    required-and-nullable one, naming the field. *)
Theorem validate_schema_first_bad_field schema pre f post self :
  (forall earlier, earlier ∈ pre -> field_ok earlier) ->
  ~ field_ok f ->
  Validator.validate_schema schema (pre ++ f :: post) self
  = (Raise (Validator.ValidationError
              (if bool_decide (FieldDefinition.type f ∈ Validator.VALID_TYPES)
               then "Field '" +:+ FieldDefinition.name f
                    +:+ "' cannot be both required and nullable"
               else "Invalid field type '" +:+ FieldDefinition.type f
                    +:+ "' for field '" +:+ FieldDefinition.name f +:+ "'. "
                    +:+ "Valid types: binary, boolean, date, datetime, float, integer, "
                    +:+ "json, string, text, time, uuid")),
     self).
Proof.
  intros Hpre Hbad. unfold Validator.validate_schema. unfold bind at 1.
  rewrite (for_each_first_raise pre post f _ self
             (Validator.ValidationError
                (if bool_decide (FieldDefinition.type f ∈ Validator.VALID_TYPES)
                 then "Field '" +:+ FieldDefinition.name f
                      +:+ "' cannot be both required and nullable"
                 else "Invalid field type '" +:+ FieldDefinition.type f
                      +:+ "' for field '" +:+ FieldDefinition.name f +:+ "'. "
                      +:+ "Valid types: binary, boolean, date, datetime, float, integer, "
                      +:+ "json, string, text, time, uuid"))).
  - reflexivity.
  - intros y. apply readonly_field_checks.
  - intros earlier Hin. by apply field_checks_return, Hpre.
  - unfold bind, Validator.validate_field_type, Validator.validate_required_nullable,
      raise_if.
    destruct (decide (FieldDefinition.type f ∈ Validator.VALID_TYPES)) as [Hty|Hty].
    + rewrite (bool_decide_eq_false_2 (FieldDefinition.type f ∉ Validator.VALID_TYPES))
        by (intros Hn; exact (Hn Hty)).
      rewrite (bool_decide_eq_true_2 _ Hty). cbn.
      destruct (FieldDefinition.required f) eqn:Hr, (FieldDefinition.nullable f) eqn:Hn,
        (FieldDefinition.primary f) eqn:Hp; cbn; try reflexivity;
        exfalso; apply Hbad; (split; [exact Hty|]); rewrite ?Hr, ?Hn, ?Hp;
        intros (? & ? & ?); discriminate.
    + rewrite (bool_decide_eq_true_2 (FieldDefinition.type f ∉ Validator.VALID_TYPES) Hty).
      rewrite (bool_decide_eq_false_2 _ Hty). cbn. reflexivity.
Qed.

(** X9. When every field passes the field rules, a schema without a
    primary field is rejected with the missing-primary-key error, and a
    schema with several with the multiple-primary-keys error, which
    names all the primary fields in document order; both name the
    schema, and the relations are not looked at. *)
Theorem validate_schema_primary_key_errors schema fields self :
  (forall f, f ∈ fields -> field_ok f) ->
  ~ one_primary fields ->
  Validator.validate_schema schema fields self
  = (Raise (Validator.ValidationError
              (match List.filter FieldDefinition.primary fields with
               | [] => "Schema '" +:+ SchemaDefinition.name schema
                       +:+ "' must have a primary key"
               | primary_keys =>
                   "Schema '" +:+ SchemaDefinition.name schema
                   +:+ "' has multiple primary keys: "
                   +:+ join ", " (map FieldDefinition.name primary_keys)
               end)),
     self).
Proof.
  intros Hfields Hone. unfold Validator.validate_schema. unfold bind at 1.
  rewrite (for_each_all_return fields _ self);
    [|intros y; apply readonly_field_checks
     |intros f Hf; by apply field_checks_return, Hfields].
  unfold bind at 1. unfold Validator.validate_primary_key, bind, raise_if.
  unfold one_primary in Hone.
  destruct (List.filter FieldDefinition.primary fields) as [|pk [|pk' rest]];
    [reflexivity|by destruct Hone|reflexivity].
Qed.

Lemma target_check_passes (schema_name : string) schemas (relation : gmap string PyVal) :
  target_exists schemas relation ->
  fst ((if truthy (Validator.relation_get relation "target") then
          do self <- get_state;
          do present <- py_in (Validator.relation_get relation "target")
                          (fun s => bool_decide (is_Some (self !! s)));
          raise_if (negb present)
            (Validator.ValidationError
               ("Relation target '" +:+ py_str (Validator.relation_get relation "target")
                +:+ "' in schema '" +:+ schema_name +:+ "' does not exist"))
        else ret tt) (Validator.index_by_name schemas)) = Return tt.
Proof.
  intros (target & Htarget & Hnames).
  apply (proj2 (target_check_returns schema_name relation _)). intros _.
  exists target. split; [exact Htarget|]. by apply index_by_name_lookup.
Qed.

(** X10. A dangling relation target is found in the second pass, after
    every schema has passed the first: the first relation, in schema and
    document order, whose target names no schema of the set raises the
    does-not-exist error, naming the target and the schema that holds
    the relation. *)
Theorem validate_all_dangling_target pre schema post rpre relation rpost target
    field_map self :
  let schemas := pre ++ schema :: post in
  (forall s, s ∈ schemas ->
     exists fields,
       field_map !! SchemaDefinition.name s = Some fields
       /\ fst (Validator.validate_schema s fields (Validator.index_by_name schemas))
          = Return tt) ->
  (forall s, s ∈ pre -> forall r, r ∈ SchemaDefinition.relations s ->
     target_exists schemas r) ->
  SchemaDefinition.relations schema = rpre ++ relation :: rpost ->
  (forall r, r ∈ rpre -> target_exists schemas r) ->
  relation !! "target" = Some (PyStr target) ->
  target ∉ map SchemaDefinition.name schemas ->
  Validator.validate_all schemas field_map self
  = (Raise (Validator.ValidationError
              ("Relation target '" +:+ target +:+ "' in schema '"
               +:+ SchemaDefinition.name schema +:+ "' does not exist")),
     Validator.index_by_name schemas).
Proof.
  intros schemas Hfirst Hpre Hrels Hrpre Htarget Hdangling.
  assert (Htruthy : truthy (Validator.relation_get relation "target") = true).
  { destruct (Hfirst schema) as (fields & _ & Hok).
    { unfold schemas. apply elem_of_app. right. apply list_elem_of_here. }
    apply validate_schema_returns in Hok as (_ & _ & Hrel).
    apply Hrel. rewrite Hrels. apply elem_of_app. right. apply list_elem_of_here. }
  unfold Validator.validate_all. unfold bind at 1. cbn [modify]. fold schemas.
  unfold bind at 1.
  rewrite (for_each_all_return schemas _ (Validator.index_by_name schemas)).
  2:{ intros y. apply readonly_first_pass. }
  2:{ intros s Hin. destruct (Hfirst s Hin) as (fields & Hfields & Hok).
      unfold bind, getitem. rewrite Hfields. exact Hok. }
  unfold schemas at 1.
  apply (for_each_first_raise pre post schema).
  - intros y. apply readonly_second_pass.
  - intros s Hin.
    apply for_each_returns; [intros r; apply readonly_target_check|].
    intros r Hr. by apply target_check_passes, (Hpre s Hin).
  - rewrite Hrels.
    rewrite (for_each_first_raise rpre rpost relation _ (Validator.index_by_name schemas)
               (Validator.ValidationError
                  ("Relation target '" +:+ target +:+ "' in schema '"
                   +:+ SchemaDefinition.name schema +:+ "' does not exist"))).
    + reflexivity.
    + intros r. apply readonly_target_check.
    + intros r Hr. by apply target_check_passes, Hrpre.
    + rewrite Htruthy. unfold bind at 1. cbn [get_state].
      unfold Validator.relation_get. rewrite Htarget. cbn [default py_str py_in].
      unfold bind, id. cbn [py_in py_str]. unfold ret at 1. cbv beta iota.
      rewrite bool_decide_eq_false_2; [reflexivity|].
      intros Hsome. apply Hdangling. by apply index_by_name_lookup.
Qed.

End ValidatorMoreFacts.

(** ** Concrete runs for the further properties *)

Section MoreRuns.

Import UnitOfWork Examples.

Ltac by_run := vm_compute; reflexivity.

(** [tagging_hook], then [soft_delete], then [recording_hook]: the
    [False] of the second comes out and the third leaves no tag. *)
Lemma execute_hooks_short_circuit_witness :
  fst (Hooks.execute_hooks "before_delete" "Post" instance7
         (registered [tagging_hook; soft_delete; recording_hook] db1))
    = Return (PyBool false)
  /\ loaded (Hooks.world
               (snd (Hooks.execute_hooks "before_delete" "Post" instance7
                       (registered [tagging_hook; soft_delete; recording_hook] db1))))
       !! 7%Z = Some (<[ "deleted_at" := PyStr "2024-01-01" ]> post_row).
Proof.
  assert (Hl : Hooks.lookup_hooks
                 (Hooks.self_hooks (registered [tagging_hook; soft_delete; recording_hook] db1))
                 "before_delete" "Post"
               = [tagging_hook] ++ soft_delete :: [recording_hook]) by by_run.
  assert (Hpre : Hooks.hook_loop "before_delete" "Post" [tagging_hook] instance7
                   (Hooks.logged Hooks.DEBUG
                      (Hooks.executing_message "before_delete" "Post"
                         ([tagging_hook] ++ soft_delete :: [recording_hook]))
                      (registered [tagging_hook; soft_delete; recording_hook] db1))
                 = (Return (Hooks.Fallthrough ({[ "tag" := PyStr "seen" ]} ∪ instance7)),
                    Hooks.logged Hooks.DEBUG
                      (Hooks.executing_message "before_delete" "Post"
                         ([tagging_hook] ++ soft_delete :: [recording_hook]))
                      (registered [tagging_hook; soft_delete; recording_hook] db1)))
    by by_run.
  assert (Hcall : Hooks.hook_call soft_delete ({[ "tag" := PyStr "seen" ]} ∪ instance7) db1
                  = (Return (PyBool false),
                     setattr 7 "deleted_at" (PyStr "2024-01-01") db1)) by by_run.
  rewrite (execute_hooks_short_circuit _ _ _ _ _ _ _ _ _ _ _ Hl Hpre Hcall eq_refl eq_refl).
  split; by_run.
Defined.

(** After [tagging_hook] the result is a mapping that still has the
    [instance] key. *)
Lemma execute_hooks_result_witness :
  exists d,
    fst (Hooks.execute_hooks "before_delete" "Post" instance7
           (registered [tagging_hook] db1)) = Return (PyDict d)
    /\ dom instance7 ⊆ dom d.
Proof.
  assert (Hrun : Hooks.execute_hooks "before_delete" "Post" instance7
                   (registered [tagging_hook] db1)
                 = (Return (PyDict ({[ "tag" := PyStr "seen" ]} ∪ instance7)),
                    Hooks.logged Hooks.DEBUG
                      (Hooks.executing_message "before_delete" "Post" [tagging_hook])
                      (registered [tagging_hook] db1))) by by_run.
  exists ({[ "tag" := PyStr "seen" ]} ∪ instance7). split.
  - rewrite Hrun. reflexivity.
  - exact (proj2 (execute_hooks_result _ _ _ _ _ _ Hrun) _ eq_refl).
Defined.

Lemma registered_reachable hooks db : HookTools.reachable (registered hooks db).
Proof.
  unfold registered.
  assert (Hgen : forall st, HookTools.reachable st ->
            HookTools.reachable
              (foldl (fun st hook => snd (Hooks.register "before_delete" "Post" hook st))
                 st hooks)).
  { induction hooks as [|hook hooks IH]; intros st Hst; [exact Hst|].
    cbn [foldl]. apply IH. by apply HookTools.reachable_register. }
  apply Hgen, HookTools.reachable_init.
Defined.

(** A misspelt event name runs nothing. *)
Lemma unknown_event_is_a_no_op_witness :
  Hooks.execute_hooks "before_delet" "Post" instance7 (registered [soft_delete] db0)
  = (Return (PyDict instance7), registered [soft_delete] db0).
Proof.
  apply (unknown_event_is_a_no_op (registered [soft_delete] db0) "before_delet" "Post"
           instance7 (registered_reachable _ _)).
  intros Hin. apply (bool_decide_pack _) in Hin. vm_compute in Hin. exact Hin.
Defined.


Lemma widget_fields_ok f : f ∈ widget_fields -> ValidatorSpec.field_ok f.
Proof.
  intros Hf. unfold widget_fields in Hf.
  apply elem_of_cons in Hf as [->|Hf]; [|apply list_elem_of_singleton in Hf as ->];
    (split; [apply (bool_decide_unpack _); vm_compute; exact I
            |cbn; intros (? & ? & ?); discriminate]).
Defined.


(** The gadget has no fields in the map: [KeyError] after the widget. *)
Lemma validate_all_missing_fields_witness :
  fst (Validator.validate_all [widget; gadget] widget_field_map Validator.init)
  = Raise (Exn "KeyError" "'Gadget'").
Proof.
  refine (f_equal fst
            (validate_all_missing_fields [widget] gadget [] widget_field_map Validator.init
               _ _)).
  - intros earlier Hin. apply list_elem_of_singleton in Hin as ->.
    exists widget_fields. split; by_run.
  - by_run.
Defined.

(** The unknown type of [colour] is reported, though the field is also
    required and nullable, and the second primary key after it is not. *)
Lemma validate_schema_first_bad_field_witness :
  fst (Validator.validate_schema widget (widget_fields ++ colour_field :: [serial_field])
         Validator.init)
  = Raise (Validator.ValidationError
             ("Invalid field type 'rgb' for field 'colour'. "
              +:+ "Valid types: binary, boolean, date, datetime, float, integer, "
              +:+ "json, string, text, time, uuid")).
Proof.
  rewrite (validate_schema_first_bad_field widget widget_fields colour_field [serial_field]
             Validator.init widget_fields_ok).
  - reflexivity.
  - intros [Hty _]. apply (bool_decide_pack _) in Hty. vm_compute in Hty. exact Hty.
Defined.

(** Two primary keys: both are named. *)
Lemma validate_schema_primary_key_errors_witness :
  fst (Validator.validate_schema widget (widget_fields ++ [serial_field]) Validator.init)
  = Raise (Validator.ValidationError
             "Schema 'Widget' has multiple primary keys: id, serial").
Proof.
  rewrite (validate_schema_primary_key_errors widget (widget_fields ++ [serial_field])
             Validator.init).
  - reflexivity.
  - intros f Hf. apply elem_of_app in Hf as [Hf|Hf]; [by apply widget_fields_ok|].
    apply list_elem_of_singleton in Hf as ->.
    split; [apply (bool_decide_unpack _); vm_compute; exact I
           |cbn; intros (? & ? & ?); discriminate].
  - unfold ValidatorSpec.one_primary. vm_compute. discriminate.
Defined.

(** The relation to [Ghost] dangles. *)
Lemma validate_all_dangling_target_witness :
  fst (Validator.validate_all [ghost_widget] widget_field_map Validator.init)
  = Raise (Validator.ValidationError
             "Relation target 'Ghost' in schema 'Widget' does not exist").
Proof.
  refine (f_equal fst
            (validate_all_dangling_target [] ghost_widget [] []
               (raw_relation "many_to_one" "Ghost") [] "Ghost" widget_field_map
               Validator.init _ _ _ _ _ _)).
  - intros s Hin. apply list_elem_of_singleton in Hin as ->.
    exists widget_fields. split; by_run.
  - intros s Hin. by apply elem_of_nil in Hin.
  - reflexivity.
  - intros r Hin. by apply elem_of_nil in Hin.
  - by_run.
  - intros Hin. cbn in Hin. apply list_elem_of_singleton in Hin. discriminate Hin.
Defined.

End MoreRuns.

(** ** More on the generators *)

Section GeneratorMoreFacts.

Import ColumnSpec.

(** X11. The validator's set of field types and the two type tables of
    the generators have the same eleven keys: a field type passes the
    validator exactly when the model generator and the API generator
    each have an entry for it.  Their fallbacks ([String], [str]) are
    reached only for types the validator rejects. *)
Theorem type_tables_cover_valid_types (t : string) :
  (t ∈ Validator.VALID_TYPES <-> is_Some (ModelGenerator.TYPE_MAPPING !! t))
  /\ (t ∈ Validator.VALID_TYPES <-> is_Some (APIGenerator.type_map !! t)).
Proof.
  assert (Hmodel : dom ModelGenerator.TYPE_MAPPING
                   = (list_to_set Validator.VALID_TYPES : gset string)).
  { apply (bool_decide_unpack _). vm_compute. exact I. }
  assert (Hapi : dom APIGenerator.type_map
                 = (list_to_set Validator.VALID_TYPES : gset string)).
  { apply (bool_decide_unpack _). vm_compute. exact I. }
  split.
  - rewrite <- elem_of_dom, Hmodel, elem_of_list_to_set. reflexivity.
  - rewrite <- elem_of_dom, Hapi, elem_of_list_to_set. reflexivity.
Qed.

(** No column type reads as a [default=] argument. *)
Lemma sqlalchemy_type_not_default (field : FieldDefinition.t) :
  startswith "default=" (ModelGenerator._get_sqlalchemy_type field) = false.
Proof.
  unfold ModelGenerator._get_sqlalchemy_type.
  assert (Hall : map_Forall (fun _ v => startswith "default=" v = false)
                   ModelGenerator.TYPE_MAPPING).
  { apply (bool_decide_unpack _). vm_compute. exact I. }
  assert (Hbase : startswith "default="
                    (default "String"
                       (ModelGenerator.TYPE_MAPPING !! FieldDefinition.type field)) = false).
  { destruct (ModelGenerator.TYPE_MAPPING !! FieldDefinition.type field) as [v|] eqn:Hv;
      cbn; [exact (Hall _ _ Hv)|reflexivity]. }
  destruct (FieldDefinition.max_length field) as [n|]; [|exact Hbase].
  destruct (String.eqb _ _ && negb _); [reflexivity|exact Hbase].
Qed.

Lemma default_arg_is_default (d : DefaultValue) :
  startswith "default=" (ModelGenerator.default_arg d) = true.
Proof. destruct d; reflexivity. Qed.

(** X12. [_generate_field_code] joins [column_args] inside [Column(...)],
    and the number of [default=] arguments among them is one for a
    primary field of type uuid plus one for a field with a default of its
    own: a primary uuid field that declares a default gets two
    [default=] arguments in the same call, [default=uuid.uuid4] first. *)
Theorem column_default_arguments (field : FieldDefinition.t) :
  ModelGenerator._generate_field_code field
    = "    " +:+ FieldDefinition.name field +:+ " = Column("
      +:+ join ", " (column_args field) +:+ ")"
  /\ default_args field
     = (if FieldDefinition.primary field
           && String.eqb (FieldDefinition.type field) "uuid"
        then ["default=uuid.uuid4"] else [])
       ++ (match FieldDefinition.default field with
           | Some d => [ModelGenerator.default_arg d]
           | None => []
           end).
Proof.
  split; [reflexivity|].
  unfold default_args, column_args.
  pose proof (sqlalchemy_type_not_default field) as Hty.
  destruct (FieldDefinition.primary field),
    (String.eqb (FieldDefinition.type field) "uuid"),
    (FieldDefinition.unique field), (FieldDefinition.nullable field),
    (FieldDefinition.index field), (FieldDefinition.default field) as [d|];
    cbn [negb andb app List.filter];
    rewrite Hty, ?default_arg_is_default; reflexivity.
Qed.



End GeneratorMoreFacts.

(** ** Concrete runs for the generators and handlers *)

Section FinalRuns.

Import Examples.


End FinalRuns.
